(** * man10-fish.py: expected hourly income of automated fishing

    A shallow embedding of [20250727mc-fish/man10-fish.py] and the
    properties of its estimator [compute_income].

    The script computes with Python numbers: the [float] fields of
    [Config] are IEEE 754 binary64 values, the [int] fields are unbounded
    integers that Python converts to binary64 whenever they meet a float.
    Python raises [ZeroDivisionError] on a zero divisor and
    [OverflowError] when an integer does not fit a float.  The embedding
    keeps all of this: the arithmetic is an interface ([PyNum]) with two
    instances, Python's own binary64 numbers and exact rationals (the
    reading "all quantities are real-valued"). *)

From Stdlib Require Import ZArith Zpower QArith Qabs Qfield Lqa Floats Bool List Ascii
  String Lia.
Import ListNotations.

Set Implicit Arguments.
Set Maximal Implicit Insertion.
#[local] Set Warnings "-inexact-float".

(** ** Exceptions and results *)

Inductive exn : Type :=
| ZeroDivisionError
| OverflowError.

Inductive res (A : Type) : Type :=
| Ok (a : A)
| Raise (e : exn).

Arguments Ok {A} a.
Arguments Raise {A} e.

(** ** The arithmetic of Python numbers, as an interface *)

Class PyNum (F : Type) : Type := {
  f_add : F -> F -> F;             (* float + float *)
  f_sub : F -> F -> F;             (* float - float *)
  f_mul : F -> F -> F;             (* float * float *)
  f_truediv : F -> F -> res F;     (* float / float, raises ZeroDivisionError *)
  f_of_int : Z -> res F;           (* int operand of a float operation *)
  int_truediv : Z -> Z -> res F;   (* int / int *)
  f_one : F                        (* the literal 1.0 *)
}.

(** ** Data model *)

(** [class Config]: one field per dataclass attribute, in source order;
    [float] attributes have type [F], [int] attributes type [Z]. *)
Record Config (F : Type) : Type := mkConfig {
  catches_per_hour : F;
  treasure_rate : F;
  treasure_types : Z;
  fish_rate_cod : F;
  fish_rate_salmon : F;
  fish_rate_puffer : F;
  fish_rate_tropical : F;
  fish_price_cod : Z;
  fish_price_salmon : Z;
  fish_price_puffer : Z;
  fish_price_tropical : Z;
  book_mending_rate : F;
  book_mending_single_rate : F;
  book_mending_multi_rate : F;
  book_smite_only_rate : F;
  book_bane_only_rate : F;
  book_unb3_only_rate : F;
  avg_enchants_per_book : F;
  avg_xp_per_enchant : F;
  avg_xp_per_catch : F;
  xp_cash_numer : F;
  xp_cash_denom : F;
  avg_enchants_per_tool : F;
  price_mending_single : Z;
  price_mending_multi : Z;
  price_smite_only : Z;
  price_bane_only : Z;
  price_unb3_only : Z
}.

(** The dictionary returned by [compute_income]: its keys, in the order
    of the [return] statement. *)
Record Result (F : Type) : Type := mkResult {
  treasures_per_hour : F;
  books_per_hour : F;
  mending_books_per_hour : F;
  mending_single_books : F;
  mending_multi_books : F;
  sellable_non_mending_books : F;
  grind_books : F;
  tools_per_hour : F;
  fish_per_hour : F;
  cod : F;
  salmon : F;
  puffer : F;
  tropical : F;
  revenue_fish : F;
  yen_from_fishing : F;
  revenue_mending : F;
  revenue_non_mending : F;
  yen_from_books : F;
  yen_from_tools : F;
  total_yen_per_hour : F;
  yen_per_xp : F;
  xp_from_fishing : F;
  xp_from_books : F;
  xp_from_tools : F
}.

(** ** Computations over the caller's [Config] object

    [cfg] is a reference to a mutable dataclass instance.  A computation
    receives the object, may raise, and hands the object back as it left
    it; an exception does not undo what was written before it. *)

Section Estimator.

Context {F : Type} {num : PyNum F}.

Definition Py (A : Type) : Type := Config F -> res A * Config F.

Definition ret {A} (a : A) : Py A := fun c => (Ok a, c).

Definition bind {A B} (m : Py A) (k : A -> Py B) : Py B :=
  fun c =>
    match m c with
    | (Ok a, c') => k a c'
    | (Raise e, c') => (Raise e, c')
    end.

(** [cfg.name]: an attribute read. *)
Definition attr {A} (name : Config F -> A) : Py A := fun c => (Ok (name c), c).

(** The outcome of an arithmetic operation, which may be an exception. *)
Definition lift {A} (r : res A) : Py A := fun c => (r, c).

Notation "x <- m ;; k" := (bind m (fun x => k))
  (at level 61, m at next level, right associativity).

(** Operators: the left operand is evaluated first, then the right one,
    then the operation is applied. *)
Definition binop (op : F -> F -> F) (a b : Py F) : Py F :=
  x <- a ;; y <- b ;; ret (op x y).

Definition py_add := binop f_add.
Definition py_sub := binop f_sub.
Definition py_mul := binop f_mul.

Definition py_truediv (a b : Py F) : Py F :=
  x <- a ;; y <- b ;; lift (f_truediv x y).

(** The conversion Python applies to an [int] operand of a float
    operation. *)
Definition to_float (n : Py Z) : Py F :=
  z <- n ;; lift (f_of_int z).

(** [int / int]. *)
Definition itruediv (a b : Py Z) : Py F :=
  x <- a ;; y <- b ;; lift (int_truediv x y).

Infix "+." := py_add (at level 50, left associativity).
Infix "-." := py_sub (at level 50, left associativity).
Infix "*." := py_mul (at level 40, left associativity).
Infix "/." := py_truediv (at level 40, left associativity).

(** [compute_income(cfg)], statement by statement. *)
Definition compute_income : Py (Result F) :=
  yen_per_xp <- attr xp_cash_numer /. attr xp_cash_denom ;;
  treasures_per_hour <- attr catches_per_hour *. attr treasure_rate ;;
  books_per_hour <- ret treasures_per_hour /. to_float (attr treasure_types) ;;
  mending_books_per_hour <- ret books_per_hour *. attr book_mending_rate ;;
  mending_single_books <- ret mending_books_per_hour *. attr book_mending_single_rate ;;
  mending_multi_books <- ret mending_books_per_hour *. attr book_mending_multi_rate ;;
  revenue_mending <-
    ret mending_single_books *. to_float (attr price_mending_single)
    +. ret mending_multi_books *. to_float (attr price_mending_multi) ;;
  sellable_non_mending_rate <-
    attr book_smite_only_rate
    +. attr book_bane_only_rate
    +. attr book_unb3_only_rate ;;
  sellable_non_mending_books <- ret books_per_hour *. ret sellable_non_mending_rate ;;
  revenue_non_mending <-
    ret books_per_hour *. attr book_smite_only_rate *. to_float (attr price_smite_only)
    +. ret books_per_hour *. attr book_bane_only_rate *. to_float (attr price_bane_only)
    +. ret books_per_hour *. attr book_unb3_only_rate *. to_float (attr price_unb3_only) ;;
  grind_books <-
    ret books_per_hour -. ret mending_books_per_hour -. ret sellable_non_mending_books ;;
  xp_from_books <- ret grind_books *. attr avg_enchants_per_book *. attr avg_xp_per_enchant ;;
  yen_from_books <- ret xp_from_books *. ret yen_per_xp ;;
  tools_per_hour <-
    ret treasures_per_hour *. itruediv (ret 2%Z) (attr treasure_types) ;;
  xp_from_tools <- ret tools_per_hour *. attr avg_enchants_per_tool *. attr avg_xp_per_enchant ;;
  yen_from_tools <- ret xp_from_tools *. ret yen_per_xp ;;
  xp_from_fishing <- attr catches_per_hour *. attr avg_xp_per_catch ;;
  yen_from_fishing <- ret xp_from_fishing *. ret yen_per_xp ;;
  fish_rate_total <- ret f_one -. attr treasure_rate ;;
  fish_per_hour <- attr catches_per_hour *. ret fish_rate_total ;;
  cod <- ret fish_per_hour *. attr fish_rate_cod ;;
  salmon <- ret fish_per_hour *. attr fish_rate_salmon ;;
  puffer <- ret fish_per_hour *. attr fish_rate_puffer ;;
  tropical <- ret fish_per_hour *. attr fish_rate_tropical ;;
  revenue_fish <-
    ret cod *. to_float (attr fish_price_cod)
    +. ret salmon *. to_float (attr fish_price_salmon)
    +. ret puffer *. to_float (attr fish_price_puffer)
    +. ret tropical *. to_float (attr fish_price_tropical) ;;
  total <-
    ret revenue_fish
    +. ret yen_from_fishing
    +. ret revenue_mending
    +. ret revenue_non_mending
    +. ret yen_from_books
    +. ret yen_from_tools ;;
  ret {|
    treasures_per_hour := treasures_per_hour;
    books_per_hour := books_per_hour;
    mending_books_per_hour := mending_books_per_hour;
    mending_single_books := mending_single_books;
    mending_multi_books := mending_multi_books;
    sellable_non_mending_books := sellable_non_mending_books;
    grind_books := grind_books;
    tools_per_hour := tools_per_hour;
    fish_per_hour := fish_per_hour;
    cod := cod;
    salmon := salmon;
    puffer := puffer;
    tropical := tropical;
    revenue_fish := revenue_fish;
    yen_from_fishing := yen_from_fishing;
    revenue_mending := revenue_mending;
    revenue_non_mending := revenue_non_mending;
    yen_from_books := yen_from_books;
    yen_from_tools := yen_from_tools;
    total_yen_per_hour := total;
    yen_per_xp := yen_per_xp;
    xp_from_fishing := xp_from_fishing;
    xp_from_books := xp_from_books;
    xp_from_tools := xp_from_tools
  |}.

(** What the caller sees of a call [compute_income(cfg)]: the value
    returned or the exception raised, and the object afterwards. *)
Definition returned (cfg : Config F) : res (Result F) := fst (compute_income cfg).
Definition object_after (cfg : Config F) : Config F := snd (compute_income cfg).

(** The equations that tie the fields of a returned dictionary to the
    configuration, one per assignment of [compute_income]; the converted
    integers ([treasure_types], the quotient [2 / treasure_types] and the
    nine prices) are the existential witnesses.  Lemma [returned_iff]
    shows that [compute_income] returns [r] exactly when they hold. *)
Definition derivation (cfg : Config F) (r : Result F) : Prop :=
  exists types_f two_over_types p_single p_multi p_smite p_bane p_unb3
         p_cod p_salmon p_puffer p_tropical : F,
    f_truediv (xp_cash_numer cfg) (xp_cash_denom cfg) = Ok (yen_per_xp r) /\
    treasures_per_hour r = f_mul (catches_per_hour cfg) (treasure_rate cfg) /\
    f_of_int (treasure_types cfg) = Ok types_f /\
    f_truediv (treasures_per_hour r) types_f = Ok (books_per_hour r) /\
    mending_books_per_hour r = f_mul (books_per_hour r) (book_mending_rate cfg) /\
    mending_single_books r
      = f_mul (mending_books_per_hour r) (book_mending_single_rate cfg) /\
    mending_multi_books r
      = f_mul (mending_books_per_hour r) (book_mending_multi_rate cfg) /\
    f_of_int (price_mending_single cfg) = Ok p_single /\
    f_of_int (price_mending_multi cfg) = Ok p_multi /\
    revenue_mending r
      = f_add (f_mul (mending_single_books r) p_single)
              (f_mul (mending_multi_books r) p_multi) /\
    sellable_non_mending_books r
      = f_mul (books_per_hour r)
              (f_add (f_add (book_smite_only_rate cfg) (book_bane_only_rate cfg))
                     (book_unb3_only_rate cfg)) /\
    f_of_int (price_smite_only cfg) = Ok p_smite /\
    f_of_int (price_bane_only cfg) = Ok p_bane /\
    f_of_int (price_unb3_only cfg) = Ok p_unb3 /\
    revenue_non_mending r
      = f_add (f_add (f_mul (f_mul (books_per_hour r) (book_smite_only_rate cfg)) p_smite)
                     (f_mul (f_mul (books_per_hour r) (book_bane_only_rate cfg)) p_bane))
              (f_mul (f_mul (books_per_hour r) (book_unb3_only_rate cfg)) p_unb3) /\
    grind_books r
      = f_sub (f_sub (books_per_hour r) (mending_books_per_hour r))
              (sellable_non_mending_books r) /\
    xp_from_books r
      = f_mul (f_mul (grind_books r) (avg_enchants_per_book cfg)) (avg_xp_per_enchant cfg) /\
    yen_from_books r = f_mul (xp_from_books r) (yen_per_xp r) /\
    int_truediv 2 (treasure_types cfg) = Ok two_over_types /\
    tools_per_hour r = f_mul (treasures_per_hour r) two_over_types /\
    xp_from_tools r
      = f_mul (f_mul (tools_per_hour r) (avg_enchants_per_tool cfg)) (avg_xp_per_enchant cfg) /\
    yen_from_tools r = f_mul (xp_from_tools r) (yen_per_xp r) /\
    xp_from_fishing r = f_mul (catches_per_hour cfg) (avg_xp_per_catch cfg) /\
    yen_from_fishing r = f_mul (xp_from_fishing r) (yen_per_xp r) /\
    fish_per_hour r
      = f_mul (catches_per_hour cfg) (f_sub f_one (treasure_rate cfg)) /\
    cod r = f_mul (fish_per_hour r) (fish_rate_cod cfg) /\
    salmon r = f_mul (fish_per_hour r) (fish_rate_salmon cfg) /\
    puffer r = f_mul (fish_per_hour r) (fish_rate_puffer cfg) /\
    tropical r = f_mul (fish_per_hour r) (fish_rate_tropical cfg) /\
    f_of_int (fish_price_cod cfg) = Ok p_cod /\
    f_of_int (fish_price_salmon cfg) = Ok p_salmon /\
    f_of_int (fish_price_puffer cfg) = Ok p_puffer /\
    f_of_int (fish_price_tropical cfg) = Ok p_tropical /\
    revenue_fish r
      = f_add (f_add (f_add (f_mul (cod r) p_cod) (f_mul (salmon r) p_salmon))
                     (f_mul (puffer r) p_puffer))
              (f_mul (tropical r) p_tropical) /\
    total_yen_per_hour r
      = f_add (f_add (f_add (f_add (f_add (revenue_fish r) (yen_from_fishing r))
                                   (revenue_mending r))
                            (revenue_non_mending r))
                     (yen_from_books r))
              (yen_from_tools r).

End Estimator.

(** ** Python's own numbers: binary64 floats and unbounded ints *)

(** A float that is neither an infinity nor a NaN. *)
Definition b64_finite (x : float) : bool :=
  match Prim2SF x with
  | S754_zero _ | S754_finite _ _ _ => true
  | _ => false
  end.

(** [x == 0]: true of [0.0] and of [-0.0]. *)
Definition b64_zero (x : float) : bool := (x =? 0)%float.

(** [float_div]: a divisor that compares equal to zero raises. *)
Definition b64_truediv (x y : float) : res float :=
  if b64_zero y then Raise ZeroDivisionError else Ok (x / y)%float.

(** [PyLong_AsDouble]: the integer rounded to the nearest float, ties to
    even; [OverflowError] when that is not a finite float. *)
Definition b64_of_int (z : Z) : res float :=
  let f := SF2Prim (binary_normalize prec emax z 0 false) in
  if b64_finite f then Ok f else Raise OverflowError.

Definition Z2SF (z : Z) : spec_float :=
  match z with
  | Z0 => S754_zero false
  | Zpos p => S754_finite false p 0
  | Zneg p => S754_finite true p 0
  end.

(** [long_true_divide]: the quotient of the two integers, correctly
    rounded. *)
Definition b64_int_truediv (a b : Z) : res float :=
  if (b =? 0)%Z then Raise ZeroDivisionError
  else
    let q := SF2Prim (SFdiv prec emax (Z2SF a) (Z2SF b)) in
    if b64_finite q then Ok q else Raise OverflowError.

#[export] Instance b64 : PyNum float := {|
  f_add := PrimFloat.add;
  f_sub := PrimFloat.sub;
  f_mul := PrimFloat.mul;
  f_truediv := b64_truediv;
  f_of_int := b64_of_int;
  int_truediv := b64_int_truediv;
  f_one := 1%float
|}.

(** The defaults of the dataclass. *)
Definition default_config : Config float := {|
  catches_per_hour := 500.0%float;
  treasure_rate := 0.113%float;
  treasure_types := 6;
  fish_rate_cod := 0.60%float;
  fish_rate_salmon := 0.25%float;
  fish_rate_puffer := 0.13%float;
  fish_rate_tropical := 0.02%float;
  fish_price_cod := 20;
  fish_price_salmon := 80;
  fish_price_puffer := 180;
  fish_price_tropical := 400;
  book_mending_rate := 0.0377%float;
  book_mending_single_rate := 0.409%float;
  book_mending_multi_rate := 0.591%float;
  book_smite_only_rate := 0.0074%float;
  book_bane_only_rate := 0.0049%float;
  book_unb3_only_rate := 0.0143%float;
  avg_enchants_per_book := 2.11%float;
  avg_xp_per_enchant := 25.0%float;
  avg_xp_per_catch := 3.5%float;
  xp_cash_numer := 40.0%float;
  xp_cash_denom := 12.0%float;
  avg_enchants_per_tool := 3.0%float;
  price_mending_single := 220000;
  price_mending_multi := 120000;
  price_smite_only := 15000;
  price_bane_only := 15000;
  price_unb3_only := 5000
|}.

(** ** Exact arithmetic: the same operations over the rationals

    The reading of the estimator in which "all quantities are
    real-valued": nothing is rounded and no integer is too large. *)

Definition Q_truediv (x y : Q) : res Q :=
  if Qeq_bool y 0 then Raise ZeroDivisionError else Ok (x / y)%Q.

Definition Q_int_truediv (a b : Z) : res Q :=
  if (b =? 0)%Z then Raise ZeroDivisionError else Ok (inject_Z a / inject_Z b)%Q.

#[export] Instance exact : PyNum Q := {|
  f_add := Qplus;
  f_sub := Qminus;
  f_mul := Qmult;
  f_truediv := Q_truediv;
  f_of_int := fun z => Ok (inject_Z z);
  int_truediv := Q_int_truediv;
  f_one := 1%Q
|}.

(** ** Configurations used in the statements *)

(** [dataclasses.replace(cfg, catches_per_hour=c)]. *)
Definition with_catches_per_hour {F} (c : F) (cfg : Config F) : Config F :=
  mkConfig c (treasure_rate cfg) (treasure_types cfg)
    (fish_rate_cod cfg) (fish_rate_salmon cfg) (fish_rate_puffer cfg)
    (fish_rate_tropical cfg) (fish_price_cod cfg) (fish_price_salmon cfg)
    (fish_price_puffer cfg) (fish_price_tropical cfg) (book_mending_rate cfg)
    (book_mending_single_rate cfg) (book_mending_multi_rate cfg)
    (book_smite_only_rate cfg) (book_bane_only_rate cfg) (book_unb3_only_rate cfg)
    (avg_enchants_per_book cfg) (avg_xp_per_enchant cfg) (avg_xp_per_catch cfg)
    (xp_cash_numer cfg) (xp_cash_denom cfg) (avg_enchants_per_tool cfg)
    (price_mending_single cfg) (price_mending_multi cfg) (price_smite_only cfg)
    (price_bane_only cfg) (price_unb3_only cfg).

(** [dataclasses.replace(cfg, treasure_rate=t)]. *)
Definition with_treasure_rate {F} (t : F) (cfg : Config F) : Config F :=
  mkConfig (catches_per_hour cfg) t (treasure_types cfg)
    (fish_rate_cod cfg) (fish_rate_salmon cfg) (fish_rate_puffer cfg)
    (fish_rate_tropical cfg) (fish_price_cod cfg) (fish_price_salmon cfg)
    (fish_price_puffer cfg) (fish_price_tropical cfg) (book_mending_rate cfg)
    (book_mending_single_rate cfg) (book_mending_multi_rate cfg)
    (book_smite_only_rate cfg) (book_bane_only_rate cfg) (book_unb3_only_rate cfg)
    (avg_enchants_per_book cfg) (avg_xp_per_enchant cfg) (avg_xp_per_catch cfg)
    (xp_cash_numer cfg) (xp_cash_denom cfg) (avg_enchants_per_tool cfg)
    (price_mending_single cfg) (price_mending_multi cfg) (price_smite_only cfg)
    (price_bane_only cfg) (price_unb3_only cfg).

(** [dataclasses.replace(cfg, treasure_types=n)]. *)
Definition with_treasure_types {F} (n : Z) (cfg : Config F) : Config F :=
  mkConfig (catches_per_hour cfg) (treasure_rate cfg) n
    (fish_rate_cod cfg) (fish_rate_salmon cfg) (fish_rate_puffer cfg)
    (fish_rate_tropical cfg) (fish_price_cod cfg) (fish_price_salmon cfg)
    (fish_price_puffer cfg) (fish_price_tropical cfg) (book_mending_rate cfg)
    (book_mending_single_rate cfg) (book_mending_multi_rate cfg)
    (book_smite_only_rate cfg) (book_bane_only_rate cfg) (book_unb3_only_rate cfg)
    (avg_enchants_per_book cfg) (avg_xp_per_enchant cfg) (avg_xp_per_catch cfg)
    (xp_cash_numer cfg) (xp_cash_denom cfg) (avg_enchants_per_tool cfg)
    (price_mending_single cfg) (price_mending_multi cfg) (price_smite_only cfg)
    (price_bane_only cfg) (price_unb3_only cfg).

(** [dataclasses.replace(cfg, xp_cash_numer=n, xp_cash_denom=d)]. *)
Definition with_xp_cash {F} (n d : F) (cfg : Config F) : Config F :=
  mkConfig (catches_per_hour cfg) (treasure_rate cfg) (treasure_types cfg)
    (fish_rate_cod cfg) (fish_rate_salmon cfg) (fish_rate_puffer cfg)
    (fish_rate_tropical cfg) (fish_price_cod cfg) (fish_price_salmon cfg)
    (fish_price_puffer cfg) (fish_price_tropical cfg) (book_mending_rate cfg)
    (book_mending_single_rate cfg) (book_mending_multi_rate cfg)
    (book_smite_only_rate cfg) (book_bane_only_rate cfg) (book_unb3_only_rate cfg)
    (avg_enchants_per_book cfg) (avg_xp_per_enchant cfg) (avg_xp_per_catch cfg)
    n d (avg_enchants_per_tool cfg)
    (price_mending_single cfg) (price_mending_multi cfg) (price_smite_only cfg)
    (price_bane_only cfg) (price_unb3_only cfg).

(** The defaults again, as exact rationals (the decimal literals of the
    source read as the fractions they denote). *)
Definition default_config_exact : Config Q := {|
  catches_per_hour := 500;
  treasure_rate := 113 # 1000;
  treasure_types := 6;
  fish_rate_cod := 60 # 100;
  fish_rate_salmon := 25 # 100;
  fish_rate_puffer := 13 # 100;
  fish_rate_tropical := 2 # 100;
  fish_price_cod := 20;
  fish_price_salmon := 80;
  fish_price_puffer := 180;
  fish_price_tropical := 400;
  book_mending_rate := 377 # 10000;
  book_mending_single_rate := 409 # 1000;
  book_mending_multi_rate := 591 # 1000;
  book_smite_only_rate := 74 # 10000;
  book_bane_only_rate := 49 # 10000;
  book_unb3_only_rate := 143 # 10000;
  avg_enchants_per_book := 211 # 100;
  avg_xp_per_enchant := 25;
  avg_xp_per_catch := 35 # 10;
  xp_cash_numer := 40;
  xp_cash_denom := 12;
  avg_enchants_per_tool := 3;
  price_mending_single := 220000;
  price_mending_multi := 120000;
  price_smite_only := 15000;
  price_bane_only := 15000;
  price_unb3_only := 5000
|}.

(** ** The command line ([main])

    The [argparse] layer is described by the table of its
    [add_argument] calls; converting the text of a flag's value is
    [argparse]'s work ([type=float], [type=int]) and a parsed command
    line is the namespace [args] of converted values. *)

#[local] Open Scope string_scope.

Inductive py_type : Type := TFloat | TInt.

Inductive py_value : Type :=
| VFloat (f : float)
| VInt (z : Z).

(** One [parser.add_argument(flag, type=..., default=...)]. *)
Record argument : Type := mkArgument {
  flag : string;
  arg_type : py_type;
  arg_default : py_value
}.

(** The [add_argument] calls of [main], in source order. *)
Definition parser_arguments : list argument := [
  mkArgument "--catches-per-hour" TFloat (VFloat 500.0);
  mkArgument "--treasure-rate" TFloat (VFloat 0.113);
  mkArgument "--fish-price-cod" TInt (VInt 20);
  mkArgument "--fish-price-salmon" TInt (VInt 80);
  mkArgument "--fish-price-puffer" TInt (VInt 180);
  mkArgument "--fish-price-tropical" TInt (VInt 400);
  mkArgument "--book-mending-rate" TFloat (VFloat 0.0377);
  mkArgument "--book-mending-single-rate" TFloat (VFloat 0.409);
  mkArgument "--book-mending-multi-rate" TFloat (VFloat 0.591);
  mkArgument "--book-smite-only-rate" TFloat (VFloat 0.0074);
  mkArgument "--book-bane-only-rate" TFloat (VFloat 0.0049);
  mkArgument "--book-unb3-only-rate" TFloat (VFloat 0.0143);
  mkArgument "--avg-enchants-per-book" TFloat (VFloat 2.11);
  mkArgument "--avg-xp-per-enchant" TFloat (VFloat 25.0);
  mkArgument "--avg-xp-per-catch" TFloat (VFloat 3.5);
  mkArgument "--xp-cash-numer" TFloat (VFloat 40.0);
  mkArgument "--xp-cash-denom" TFloat (VFloat 12.0);
  mkArgument "--avg-enchants-per-tool" TFloat (VFloat 3.0)
].

(** The attribute of [args] a flag is stored under: the leading dashes
    are dropped and the inner ones become underscores. *)
Fixpoint underscores (s : string) : string :=
  match s with
  | EmptyString => EmptyString
  | String c s' =>
      String (if Ascii.eqb c "-"%char then "_"%char else c) (underscores s')
  end.

Fixpoint strip_dashes (s : string) : string :=
  match s with
  | String c s' => if Ascii.eqb c "-"%char then strip_dashes s' else s
  | EmptyString => EmptyString
  end.

Definition dest (a : argument) : string := underscores (strip_dashes (flag a)).

(** One attribute of the dataclass: name, annotation and default. *)
Record dataclass_field : Type := mkField {
  field_name : string;
  field_type : py_type;
  field_default : py_value
}.

(** [dataclasses.fields(Config)], in source order. *)
Definition config_fields : list dataclass_field := [
  mkField "catches_per_hour" TFloat (VFloat 500.0);
  mkField "treasure_rate" TFloat (VFloat 0.113);
  mkField "treasure_types" TInt (VInt 6);
  mkField "fish_rate_cod" TFloat (VFloat 0.60);
  mkField "fish_rate_salmon" TFloat (VFloat 0.25);
  mkField "fish_rate_puffer" TFloat (VFloat 0.13);
  mkField "fish_rate_tropical" TFloat (VFloat 0.02);
  mkField "fish_price_cod" TInt (VInt 20);
  mkField "fish_price_salmon" TInt (VInt 80);
  mkField "fish_price_puffer" TInt (VInt 180);
  mkField "fish_price_tropical" TInt (VInt 400);
  mkField "book_mending_rate" TFloat (VFloat 0.0377);
  mkField "book_mending_single_rate" TFloat (VFloat 0.409);
  mkField "book_mending_multi_rate" TFloat (VFloat 0.591);
  mkField "book_smite_only_rate" TFloat (VFloat 0.0074);
  mkField "book_bane_only_rate" TFloat (VFloat 0.0049);
  mkField "book_unb3_only_rate" TFloat (VFloat 0.0143);
  mkField "avg_enchants_per_book" TFloat (VFloat 2.11);
  mkField "avg_xp_per_enchant" TFloat (VFloat 25.0);
  mkField "avg_xp_per_catch" TFloat (VFloat 3.5);
  mkField "xp_cash_numer" TFloat (VFloat 40.0);
  mkField "xp_cash_denom" TFloat (VFloat 12.0);
  mkField "avg_enchants_per_tool" TFloat (VFloat 3.0);
  mkField "price_mending_single" TInt (VInt 220000);
  mkField "price_mending_multi" TInt (VInt 120000);
  mkField "price_smite_only" TInt (VInt 15000);
  mkField "price_bane_only" TInt (VInt 15000);
  mkField "price_unb3_only" TInt (VInt 5000)
].

(** [asdict(cfg)], which [main] prints: the attributes and their values. *)
Definition asdict (cfg : Config float) : list (string * py_value) := [
  ("catches_per_hour", VFloat (catches_per_hour cfg));
  ("treasure_rate", VFloat (treasure_rate cfg));
  ("treasure_types", VInt (treasure_types cfg));
  ("fish_rate_cod", VFloat (fish_rate_cod cfg));
  ("fish_rate_salmon", VFloat (fish_rate_salmon cfg));
  ("fish_rate_puffer", VFloat (fish_rate_puffer cfg));
  ("fish_rate_tropical", VFloat (fish_rate_tropical cfg));
  ("fish_price_cod", VInt (fish_price_cod cfg));
  ("fish_price_salmon", VInt (fish_price_salmon cfg));
  ("fish_price_puffer", VInt (fish_price_puffer cfg));
  ("fish_price_tropical", VInt (fish_price_tropical cfg));
  ("book_mending_rate", VFloat (book_mending_rate cfg));
  ("book_mending_single_rate", VFloat (book_mending_single_rate cfg));
  ("book_mending_multi_rate", VFloat (book_mending_multi_rate cfg));
  ("book_smite_only_rate", VFloat (book_smite_only_rate cfg));
  ("book_bane_only_rate", VFloat (book_bane_only_rate cfg));
  ("book_unb3_only_rate", VFloat (book_unb3_only_rate cfg));
  ("avg_enchants_per_book", VFloat (avg_enchants_per_book cfg));
  ("avg_xp_per_enchant", VFloat (avg_xp_per_enchant cfg));
  ("avg_xp_per_catch", VFloat (avg_xp_per_catch cfg));
  ("xp_cash_numer", VFloat (xp_cash_numer cfg));
  ("xp_cash_denom", VFloat (xp_cash_denom cfg));
  ("avg_enchants_per_tool", VFloat (avg_enchants_per_tool cfg));
  ("price_mending_single", VInt (price_mending_single cfg));
  ("price_mending_multi", VInt (price_mending_multi cfg));
  ("price_smite_only", VInt (price_smite_only cfg));
  ("price_bane_only", VInt (price_bane_only cfg));
  ("price_unb3_only", VInt (price_unb3_only cfg))
].

(** The flag that sets an attribute of [Config], if [main] has one. *)
Definition flag_of_field (f : dataclass_field) : option argument :=
  find (fun a => String.eqb (dest a) (field_name f)) parser_arguments.

(** The namespace returned by [parser.parse_args()]: one attribute per
    flag, already converted by the flag's [type]. *)
Record Namespace : Type := mkNamespace {
  args_catches_per_hour : float;
  args_treasure_rate : float;
  args_fish_price_cod : Z;
  args_fish_price_salmon : Z;
  args_fish_price_puffer : Z;
  args_fish_price_tropical : Z;
  args_book_mending_rate : float;
  args_book_mending_single_rate : float;
  args_book_mending_multi_rate : float;
  args_book_smite_only_rate : float;
  args_book_bane_only_rate : float;
  args_book_unb3_only_rate : float;
  args_avg_enchants_per_book : float;
  args_avg_xp_per_enchant : float;
  args_avg_xp_per_catch : float;
  args_xp_cash_numer : float;
  args_xp_cash_denom : float;
  args_avg_enchants_per_tool : float
}.

(** The [Config(...)] call of [main]: the keyword arguments it passes
    come from [args], every other attribute keeps its default. *)
Definition main_config (args : Namespace) : Config float := {|
  catches_per_hour := args_catches_per_hour args;
  treasure_rate := args_treasure_rate args;
  treasure_types := treasure_types default_config;
  fish_rate_cod := fish_rate_cod default_config;
  fish_rate_salmon := fish_rate_salmon default_config;
  fish_rate_puffer := fish_rate_puffer default_config;
  fish_rate_tropical := fish_rate_tropical default_config;
  fish_price_cod := args_fish_price_cod args;
  fish_price_salmon := args_fish_price_salmon args;
  fish_price_puffer := args_fish_price_puffer args;
  fish_price_tropical := args_fish_price_tropical args;
  book_mending_rate := args_book_mending_rate args;
  book_mending_single_rate := args_book_mending_single_rate args;
  book_mending_multi_rate := args_book_mending_multi_rate args;
  book_smite_only_rate := args_book_smite_only_rate args;
  book_bane_only_rate := args_book_bane_only_rate args;
  book_unb3_only_rate := args_book_unb3_only_rate args;
  avg_enchants_per_book := args_avg_enchants_per_book args;
  avg_xp_per_enchant := args_avg_xp_per_enchant args;
  avg_xp_per_catch := args_avg_xp_per_catch args;
  xp_cash_numer := args_xp_cash_numer args;
  xp_cash_denom := args_xp_cash_denom args;
  avg_enchants_per_tool := args_avg_enchants_per_tool args;
  price_mending_single := price_mending_single default_config;
  price_mending_multi := price_mending_multi default_config;
  price_smite_only := price_smite_only default_config;
  price_bane_only := price_bane_only default_config;
  price_unb3_only := price_unb3_only default_config
|}.

(** The call returned: no exception was raised. *)
Definition ok {A} (r : res A) : bool :=
  match r with
  | Ok _ => true
  | Raise _ => false
  end.

(** The configurations on which [compute_income] returns a result when
    it computes with Python's numbers: both divisors are nonzero and
    every integer it meets fits a float (Lemma [b64_returns_spec]). *)
Definition b64_returns (cfg : Config float) : bool :=
  negb (b64_zero (xp_cash_denom cfg))
  && match b64_of_int (treasure_types cfg) with
     | Ok t => negb (b64_zero t)
     | Raise _ => false
     end
  && ok (b64_int_truediv 2 (treasure_types cfg))
  && forallb (fun z => ok (b64_of_int z))
       [price_mending_single cfg; price_mending_multi cfg; price_smite_only cfg;
        price_bane_only cfg; price_unb3_only cfg; fish_price_cod cfg;
        fish_price_salmon cfg; fish_price_puffer cfg; fish_price_tropical cfg].

(** The float attributes of a configuration, in source order. *)
Definition float_fields (cfg : Config float) : list float := [
  catches_per_hour cfg; treasure_rate cfg;
  fish_rate_cod cfg; fish_rate_salmon cfg; fish_rate_puffer cfg; fish_rate_tropical cfg;
  book_mending_rate cfg; book_mending_single_rate cfg; book_mending_multi_rate cfg;
  book_smite_only_rate cfg; book_bane_only_rate cfg; book_unb3_only_rate cfg;
  avg_enchants_per_book cfg; avg_xp_per_enchant cfg; avg_xp_per_catch cfg;
  xp_cash_numer cfg; xp_cash_denom cfg; avg_enchants_per_tool cfg
].

(** No float attribute is an infinity or a NaN. *)
Definition all_finite (cfg : Config float) : bool :=
  forallb b64_finite (float_fields cfg).

(** [r'] is [r] with every per-hour count, every experience and revenue
    term and the total multiplied by [k]; the conversion rate
    [yen_per_xp] is the same. *)
Definition scaled_by (k : Q) (r r' : Result Q) : Prop :=
  treasures_per_hour r' == k * treasures_per_hour r /\
  books_per_hour r' == k * books_per_hour r /\
  mending_books_per_hour r' == k * mending_books_per_hour r /\
  mending_single_books r' == k * mending_single_books r /\
  mending_multi_books r' == k * mending_multi_books r /\
  sellable_non_mending_books r' == k * sellable_non_mending_books r /\
  grind_books r' == k * grind_books r /\
  tools_per_hour r' == k * tools_per_hour r /\
  fish_per_hour r' == k * fish_per_hour r /\
  cod r' == k * cod r /\
  salmon r' == k * salmon r /\
  puffer r' == k * puffer r /\
  tropical r' == k * tropical r /\
  revenue_fish r' == k * revenue_fish r /\
  yen_from_fishing r' == k * yen_from_fishing r /\
  revenue_mending r' == k * revenue_mending r /\
  revenue_non_mending r' == k * revenue_non_mending r /\
  yen_from_books r' == k * yen_from_books r /\
  yen_from_tools r' == k * yen_from_tools r /\
  total_yen_per_hour r' == k * total_yen_per_hour r /\
  xp_from_fishing r' == k * xp_from_fishing r /\
  xp_from_books r' == k * xp_from_books r /\
  xp_from_tools r' == k * xp_from_tools r /\
  yen_per_xp r' == yen_per_xp r.

(** The rational number a finite float stands for. *)
Definition b64_value (x : float) : option Q :=
  match Prim2SF x with
  | S754_zero _ => Some 0
  | S754_finite s m e =>
      Some ((if s then - inject_Z (Zpos m) else inject_Z (Zpos m)) * 2 ^ e)
  | _ => None
  end.

(** [x] is finite and within the relative distance [eps] of [q]. *)
Definition close_to (eps : Q) (x : float) (q : Q) : bool :=
  match b64_value x with
  | Some v => Qle_bool (Qabs (v - q)) (eps * Qabs q)
  | None => false
  end.

(** Every field of the binary64 result is within [eps] of the exact one. *)
Definition result_close_to (eps : Q) (r : Result float) (q : Result Q) : bool :=
  forallb (fun p => close_to eps (fst p) (snd p)) [
    (treasures_per_hour r, treasures_per_hour q);
    (books_per_hour r, books_per_hour q);
    (mending_books_per_hour r, mending_books_per_hour q);
    (mending_single_books r, mending_single_books q);
    (mending_multi_books r, mending_multi_books q);
    (sellable_non_mending_books r, sellable_non_mending_books q);
    (grind_books r, grind_books q);
    (tools_per_hour r, tools_per_hour q);
    (fish_per_hour r, fish_per_hour q);
    (cod r, cod q);
    (salmon r, salmon q);
    (puffer r, puffer q);
    (tropical r, tropical q);
    (revenue_fish r, revenue_fish q);
    (yen_from_fishing r, yen_from_fishing q);
    (revenue_mending r, revenue_mending q);
    (revenue_non_mending r, revenue_non_mending q);
    (yen_from_books r, yen_from_books q);
    (yen_from_tools r, yen_from_tools q);
    (total_yen_per_hour r, total_yen_per_hour q);
    (yen_per_xp r, yen_per_xp q);
    (xp_from_fishing r, xp_from_fishing q);
    (xp_from_books r, xp_from_books q);
    (xp_from_tools r, xp_from_tools q)
  ].

(** The integer fits a float: converting it does not raise. *)
Definition fits (z : Z) : bool := ok (b64_of_int z).

(** The [int] attributes of a configuration, in source order. *)
Definition int_fields (cfg : Config float) : list Z := [
  treasure_types cfg;
  fish_price_cod cfg; fish_price_salmon cfg; fish_price_puffer cfg;
  fish_price_tropical cfg;
  price_mending_single cfg; price_mending_multi cfg;
  price_smite_only cfg; price_bane_only cfg; price_unb3_only cfg
].

(** [result.items()]: the keys and values of the returned dictionary, in
    insertion order, which is the order of the [return] statement. *)
Definition items (r : Result float) : list (string * float) := [
  ("treasures_per_hour", treasures_per_hour r);
  ("books_per_hour", books_per_hour r);
  ("mending_books_per_hour", mending_books_per_hour r);
  ("mending_single_books", mending_single_books r);
  ("mending_multi_books", mending_multi_books r);
  ("sellable_non_mending_books", sellable_non_mending_books r);
  ("grind_books", grind_books r);
  ("tools_per_hour", tools_per_hour r);
  ("fish_per_hour", fish_per_hour r);
  ("cod", cod r);
  ("salmon", salmon r);
  ("puffer", puffer r);
  ("tropical", tropical r);
  ("revenue_fish", revenue_fish r);
  ("yen_from_fishing", yen_from_fishing r);
  ("revenue_mending", revenue_mending r);
  ("revenue_non_mending", revenue_non_mending r);
  ("yen_from_books", yen_from_books r);
  ("yen_from_tools", yen_from_tools r);
  ("total_yen_per_hour", total_yen_per_hour r);
  ("yen_per_xp", yen_per_xp r);
  ("xp_from_fishing", xp_from_fishing r);
  ("xp_from_books", xp_from_books r);
  ("xp_from_tools", xp_from_tools r)
]%string.

(** One call of [print] in [main].  Turning a value into text is the
    work of Python's [str] and of the format [,.2f]; the call records
    which of the two applies. *)
Inductive printed : Type :=
| SettingsHeader                            (* print("=== ... ===") *)
| ConfigLine (k : string) (v : py_value)    (* print(f"{k}: {v}") *)
| ResultsHeader                             (* print("\n=== ... ===") *)
| ResultLine (k : string) (v : float).      (* print(f"{k}: {v:,.2f}") *)

(** [main], from the parsed command line on: the configuration is built,
    the estimator is called on it, and only then anything is printed;
    [asdict] reads the object as the estimator left it.  The value is
    the outcome of the run and the calls of [print] made. *)
Definition main (args : Namespace) : res unit * list printed :=
  let cfg := main_config args in
  match compute_income cfg with
  | (Raise e, _) => (Raise e, [])
  | (Ok result, cfg') =>
      (Ok tt,
       SettingsHeader
         :: map (fun kv => ConfigLine (fst kv) (snd kv)) (asdict cfg')
         ++ ResultsHeader
         :: map (fun kv => ResultLine (fst kv) (snd kv)) (items result))
  end.

(** The values of a result that are amounts per hour: every entry but
    the conversion rate [yen_per_xp]. *)
Definition amounts (r : Result float) : list float :=
  map snd (filter (fun kv => negb (String.eqb (fst kv) "yen_per_xp")) (items r)).

Unset Implicit Arguments.
Unset Maximal Implicit Insertion.

(** * Properties *)

(** ** Running [compute_income], for any arithmetic *)

Ltac py_unfold :=
  cbv beta iota zeta delta
    [returned object_after compute_income bind ret attr lift py_add py_sub py_mul
     py_truediv to_float itruediv binop fst snd].

(** Case analysis on the next operation that may raise. *)
Ltac py_step :=
  match goal with
  | |- context [match f_truediv ?a ?b with _ => _ end] =>
      let E := fresh "E" in destruct (f_truediv a b) eqn:E
  | |- context [match f_of_int ?a with _ => _ end] =>
      let E := fresh "E" in destruct (f_of_int a) eqn:E
  | |- context [match int_truediv ?a ?b with _ => _ end] =>
      let E := fresh "E" in destruct (int_truediv a b) eqn:E
  end.

Ltac result_fields :=
  cbn [yen_per_xp treasures_per_hour books_per_hour mending_books_per_hour
       mending_single_books mending_multi_books sellable_non_mending_books
       grind_books tools_per_hour fish_per_hour cod salmon puffer tropical
       revenue_fish yen_from_fishing revenue_mending revenue_non_mending
       yen_from_books yen_from_tools total_yen_per_hour xp_from_fishing
       xp_from_books xp_from_tools] in *.

Section Runs.

Context {F : Type} {num : PyNum F}.

(** Whatever the outcome, the object is left as it was received. *)
Lemma object_after_id (cfg : Config F) : object_after cfg = cfg.
Proof.
  py_unfold. repeat (py_step; cbv beta iota); reflexivity.
Qed.

Lemma returned_derivation (cfg : Config F) (r : Result F) :
  returned cfg = Ok r -> derivation cfg r.
Proof.
  py_unfold. repeat (py_step; cbv beta iota; try discriminate).
  intros H. injection H as <-. unfold derivation. result_fields.
  do 11 eexists. repeat split; try reflexivity; eassumption.
Qed.

Lemma derivation_returned (cfg : Config F) (r : Result F) :
  derivation cfg r -> returned cfg = Ok r.
Proof.
  unfold derivation. intros H. destruct r. result_fields.
  decompose record H. subst.
  py_unfold.
  repeat match goal with
         | E : _ = Ok _ |- _ => rewrite E; clear E; cbv beta iota
         end.
  reflexivity.
Qed.

Lemma returned_iff (cfg : Config F) (r : Result F) :
  returned cfg = Ok r <-> derivation cfg r.
Proof. split; [apply returned_derivation | apply derivation_returned]. Qed.

(** The call returns as soon as none of its thirteen operations that may
    raise does. *)
Lemma returns_when (cfg : Config F) (y t b q p1 p2 p3 p4 p5 p6 p7 p8 p9 : F) :
  f_truediv (xp_cash_numer cfg) (xp_cash_denom cfg) = Ok y ->
  f_of_int (treasure_types cfg) = Ok t ->
  f_truediv (f_mul (catches_per_hour cfg) (treasure_rate cfg)) t = Ok b ->
  f_of_int (price_mending_single cfg) = Ok p1 ->
  f_of_int (price_mending_multi cfg) = Ok p2 ->
  f_of_int (price_smite_only cfg) = Ok p3 ->
  f_of_int (price_bane_only cfg) = Ok p4 ->
  f_of_int (price_unb3_only cfg) = Ok p5 ->
  int_truediv 2 (treasure_types cfg) = Ok q ->
  f_of_int (fish_price_cod cfg) = Ok p6 ->
  f_of_int (fish_price_salmon cfg) = Ok p7 ->
  f_of_int (fish_price_puffer cfg) = Ok p8 ->
  f_of_int (fish_price_tropical cfg) = Ok p9 ->
  exists r, returned cfg = Ok r.
Proof.
  intros E1 E2 E3 E4 E5 E6 E7 E8 E9 E10 E11 E12 E13.
  py_unfold.
  rewrite E1; cbv beta iota. rewrite E2; cbv beta iota. rewrite E3; cbv beta iota.
  rewrite E4; cbv beta iota. rewrite E5; cbv beta iota. rewrite E6; cbv beta iota.
  rewrite E7; cbv beta iota. rewrite E8; cbv beta iota. rewrite E9; cbv beta iota.
  rewrite E10; cbv beta iota. rewrite E11; cbv beta iota. rewrite E12; cbv beta iota.
  rewrite E13; cbv beta iota.
  eexists. reflexivity.
Qed.


(** C9. [compute_income] is pure and deterministic: a call leaves every
    field of the configuration object as it was, whether it returns or
    raises; a second call on the object left by the first has the same
    outcome; and calls on equal configurations have equal outcomes. *)
Theorem compute_income_pure (cfg : Config F) :
  object_after cfg = cfg /\
  compute_income (object_after cfg) = compute_income cfg /\
  (forall cfg' : Config F, cfg' = cfg -> returned cfg' = returned cfg).
Proof.
  split; [apply object_after_id|]. split.
  - rewrite object_after_id. reflexivity.
  - intros cfg' ->. reflexivity.
Qed.

End Runs.

(** ** Binary64 facts used below *)

Section Binary64.

#[local] Open Scope float_scope.

Lemma b64_zero_SF x :
  b64_zero x = match Prim2SF x with S754_zero _ => true | _ => false end.
Proof.
  unfold b64_zero. rewrite FloatAxioms.eqb_spec.
  change (Prim2SF 0) with (S754_zero false).
  destruct (Prim2SF x) as [s| s| |s m e]; try reflexivity; destruct s; reflexivity.
Qed.

Lemma b64_zero_cases x : b64_zero x = true -> x = 0 \/ x = -0.
Proof.
  rewrite b64_zero_SF. intros H. rewrite <- (SF2Prim_Prim2SF x).
  destruct (Prim2SF x) as [[|]| | |]; try discriminate; [right|left]; reflexivity.
Qed.

Lemma b64_zero_finite x : b64_zero x = true -> b64_finite x = true.
Proof. rewrite b64_zero_SF. unfold b64_finite. destruct (Prim2SF x); congruence. Qed.

(** A finite number times zero is zero. *)
Lemma b64_mul_zero_r x z :
  b64_finite x = true -> b64_zero z = true -> b64_zero (x * z) = true.
Proof.
  rewrite !b64_zero_SF. unfold b64_finite. rewrite mul_spec.
  destruct (Prim2SF x), (Prim2SF z); try discriminate; reflexivity.
Qed.

Lemma b64_mul_zero_l z x :
  b64_zero z = true -> b64_finite x = true -> b64_zero (z * x) = true.
Proof.
  rewrite !b64_zero_SF. unfold b64_finite. rewrite mul_spec.
  destruct (Prim2SF x), (Prim2SF z); try discriminate; reflexivity.
Qed.

(** Zero divided by a finite nonzero number is zero. *)
Lemma b64_div_zero_l z y :
  b64_zero z = true -> b64_finite y = true -> b64_zero y = false ->
  b64_zero (z / y) = true.
Proof.
  rewrite !b64_zero_SF. unfold b64_finite. rewrite div_spec.
  destruct (Prim2SF z), (Prim2SF y); try discriminate; reflexivity.
Qed.

Lemma b64_add_zero z1 z2 :
  b64_zero z1 = true -> b64_zero z2 = true -> b64_zero (z1 + z2) = true.
Proof.
  rewrite !b64_zero_SF. rewrite add_spec.
  destruct (Prim2SF z1) as [[|]| | |], (Prim2SF z2) as [[|]| | |];
    try discriminate; reflexivity.
Qed.

Lemma b64_sub_zero z1 z2 :
  b64_zero z1 = true -> b64_zero z2 = true -> b64_zero (z1 - z2) = true.
Proof.
  rewrite !b64_zero_SF. rewrite sub_spec.
  destruct (Prim2SF z1) as [[|]| | |], (Prim2SF z2) as [[|]| | |];
    try discriminate; reflexivity.
Qed.

Lemma b64_one_sub_zero z : b64_zero z = true -> 1 - z = 1.
Proof. intros H. destruct (b64_zero_cases z H); subst; reflexivity. Qed.

Lemma digits2_pos_shift52 m :
  Zpos (digits2_pos (m * 4503599627370496)) = (Zpos (digits2_pos m) + 52)%Z.
Proof. rewrite Pos.mul_comm. cbn [Pos.mul digits2_pos]. lia. Qed.

(** Multiplying by [1.0] rounds nothing: the product of the mantissa
    with [2^52] is shifted back by 52 bits without loss. *)
Lemma b64_mul_one_r x : x * 1 = x.
Proof.
  apply Prim2SF_inj. rewrite mul_spec.
  change (Prim2SF 1) with (S754_finite false 4503599627370496 (-52)).
  pose proof (Prim2SF_valid x) as V.
  destruct (Prim2SF x) as [s|s| |s m e]; cbn [SF64mul SFmul];
    try reflexivity; try (destruct s; reflexivity).
  cbn [valid_binary] in V. unfold SpecFloat.valid_binary, bounded, canonical_mantissa in V.
  apply andb_true_iff in V. destruct V as [C B]. apply Z.eqb_eq in C.
  unfold binary_round_aux, shr_fexp. cbn [Zdigits2].
  rewrite digits2_pos_shift52.
  replace (Z.pos (digits2_pos m) + 52 + (e + -52))%Z
    with (Z.pos (digits2_pos m) + e)%Z by lia.
  rewrite C. replace (e - (e + -52))%Z with 52%Z by lia.
  rewrite Pos.mul_comm. cbn [Pos.mul shr shr_record_of_loc iter_pos shr_1 orb].
  cbn [shr_m loc_of_shr_record round_nearest_even Zdigits2].
  replace (e + -52 + 52)%Z with e by lia. rewrite C, Z.sub_diag. cbn [shr shr_m].
  rewrite B. destruct s; reflexivity.
Qed.

(** What the operations that may raise say when they return. *)
Lemma b64_truediv_Ok x y q :
  b64_truediv x y = Ok q -> b64_zero y = false /\ q = x / y.
Proof.
  unfold b64_truediv. destruct (b64_zero y); [discriminate|].
  intros H. injection H as <-. split; reflexivity.
Qed.

Lemma b64_of_int_Ok z f : b64_of_int z = Ok f -> b64_finite f = true.
Proof.
  unfold b64_of_int.
  destruct (b64_finite (SF2Prim (binary_normalize prec emax z 0 false))) eqn:E;
    [|discriminate].
  intros H. injection H as <-. exact E.
Qed.

Lemma b64_int_truediv_Ok a b q : b64_int_truediv a b = Ok q -> b64_finite q = true.
Proof.
  unfold b64_int_truediv. destruct (b =? 0)%Z; [discriminate|].
  destruct (b64_finite (SF2Prim (SFdiv prec emax (Z2SF a) (Z2SF b)))) eqn:E;
    [|discriminate].
  intros H. injection H as <-. exact E.
Qed.

End Binary64.

(** ** The estimator on Python's numbers *)

(** Names for the equations of a returned result. *)
Ltac unpack_derivation R :=
  apply returned_derivation in R;
  destruct R as
    (types_f & two_over_types & p_single & p_multi & p_smite & p_bane & p_unb3
     & p_cod & p_salmon & p_puffer & p_tropical
     & Eyen & Etreasures & Etypes & Ebooks & Emending & Esingle & Emulti
     & Epsingle & Epmulti & Erev_mending & Esellable & Epsmite & Epbane & Epunb3
     & Erev_non_mending & Egrind & Exp_books & Eyen_books & Etwo & Etools
     & Exp_tools & Eyen_tools & Exp_fishing & Eyen_fishing & Efish
     & Ecod & Esalmon & Epuffer & Etropical & Epcod & Epsalmon & Eppuffer
     & Eptropical & Erev_fish & Etotal).

Ltac b64_ops :=
  cbn [f_truediv f_mul f_add f_sub f_of_int int_truediv f_one b64] in *.

(** Zero-ness of a sum, a difference or a product whose left factor is
    zero and whose right factor is finite. *)
Ltac zero_left :=
  repeat first
    [ assumption
    | apply b64_add_zero
    | apply b64_sub_zero
    | apply b64_mul_zero_l
    | eapply b64_of_int_Ok; eassumption
    | eapply b64_int_truediv_Ok; eassumption ].

Lemma all_finite_fields (cfg : Config float) :
  all_finite cfg = true -> Forall (fun x => b64_finite x = true) (float_fields cfg).
Proof.
  unfold all_finite. rewrite forallb_forall. intros H. apply Forall_forall. exact H.
Qed.

Ltac finite_fields H :=
  apply all_finite_fields in H; unfold float_fields in H;
  repeat match goal with
         | H : Forall _ (_ :: _) |- _ => inversion_clear H
         | H : Forall _ [] |- _ => clear H
         end.

Lemma ok_Ok {A} (r : res A) : ok r = true <-> exists a, r = Ok a.
Proof.
  destruct r; cbn; split; intros H; try discriminate; eauto.
  destruct H as [a H]. discriminate.
Qed.

Section Python.

#[local] Open Scope float_scope.

(** When the call returns on Python's numbers. *)
Lemma b64_returns_spec (cfg : Config float) :
  (exists r, returned cfg = Ok r) <-> b64_returns cfg = true.
Proof.
  unfold b64_returns. split.
  - intros [r R]. unpack_derivation R. b64_ops.
    apply b64_truediv_Ok in Eyen. destruct Eyen as [D _].
    apply b64_truediv_Ok in Ebooks. destruct Ebooks as [Dt _].
    cbn [forallb]. rewrite D, Etypes, Dt, Etwo, Epsingle, Epmulti, Epsmite, Epbane,
      Epunb3, Epcod, Epsalmon, Eppuffer, Eptropical. reflexivity.
  - cbn [forallb]. rewrite !andb_true_iff, !negb_true_iff, !ok_Ok.
    intros [[[D T] [q Q]] (P1 & P2 & P3 & P4 & P5 & P6 & P7 & P8 & P9 & _)].
    destruct P1 as [p1 P1], P2 as [p2 P2], P3 as [p3 P3], P4 as [p4 P4],
      P5 as [p5 P5], P6 as [p6 P6], P7 as [p7 P7], P8 as [p8 P8], P9 as [p9 P9].
    destruct (b64_of_int (treasure_types cfg)) as [t|] eqn:Et; [|discriminate].
    apply negb_true_iff in T.
    eapply (returns_when cfg); try eassumption; b64_ops.
    + unfold b64_truediv. rewrite D. reflexivity.
    + unfold b64_truediv. rewrite T. reflexivity.
Qed.

(** C1, as stated, fails: with [treasure_types = 0], and with
    [xp_cash_denom = 0], the call raises [ZeroDivisionError]; no result
    record is returned, so no infinite or undefined value reaches one. *)
Lemma zero_divisor_no_result :
  returned (with_treasure_types 0 default_config) = Raise ZeroDivisionError /\
  returned (with_xp_cash 40 0 default_config) = Raise ZeroDivisionError /\
  ~ (exists r, returned (with_treasure_types 0 default_config) = Ok r) /\
  ~ (exists r, returned (with_xp_cash 40 0 default_config) = Ok r).
Proof.
  assert (A : returned (with_treasure_types 0 default_config)
              = Raise ZeroDivisionError) by (vm_compute; reflexivity).
  assert (B : returned (with_xp_cash 40 0 default_config)
              = Raise ZeroDivisionError) by (vm_compute; reflexivity).
  repeat split; trivial; intros [r H]; congruence.
Qed.

(** C1 (amended). For every configuration with [treasure_types = 0] or
    with [xp_cash_denom] equal to zero ([0.0] or [-0.0]),
    [compute_income] raises [ZeroDivisionError] and returns no result
    record; the configuration is left as it was. *)
Theorem zero_divisor_raises (cfg : Config float) :
  treasure_types cfg = 0%Z \/ b64_zero (xp_cash_denom cfg) = true ->
  returned cfg = Raise ZeroDivisionError /\ object_after cfg = cfg.
Proof.
  intros H. split; [|apply object_after_id].
  py_unfold. cbn [f_truediv f_of_int b64]. unfold b64_truediv at 1.
  destruct (b64_zero (xp_cash_denom cfg)) eqn:D; [reflexivity|].
  destruct H as [H|H]; [|discriminate].
  rewrite H. reflexivity.
Qed.

Lemma zero_divisor_raises_witness :
  returned (with_treasure_types 0 default_config) = Raise ZeroDivisionError /\
  object_after (with_treasure_types 0 default_config)
  = with_treasure_types 0 default_config.
Proof.
  apply (zero_divisor_raises (with_treasure_types 0 default_config)).
  left. reflexivity.
Defined.

(** C2. With [catches_per_hour = 500], [treasure_rate = 0.113],
    [treasure_types = 6], [book_mending_rate = 0.0377] and the other
    fields at their defaults (these four values are the defaults too),
    [compute_income] returns [treasures_per_hour = 56.5],
    [books_per_hour = 56.5 / 6 = 9.4166...] and
    [mending_books_per_hour = books_per_hour * 0.0377], about [0.355]. *)
Theorem example_scenario :
  catches_per_hour default_config = 500 /\
  treasure_rate default_config = 0.113 /\
  treasure_types default_config = 6%Z /\
  book_mending_rate default_config = 0.0377 /\
  exists r,
    returned default_config = Ok r /\
    treasures_per_hour r = 500 * 0.113 /\
    treasures_per_hour r = 56.5 /\
    books_per_hour r = 56.5 / 6 /\
    mending_books_per_hour r = books_per_hour r * 0.0377 /\
    (9.4166 <? books_per_hour r) && (books_per_hour r <? 9.4167) = true /\
    (0.355 <=? mending_books_per_hour r)
      && (mending_books_per_hour r <? 0.3551) = true.
Proof.
  repeat (split; [reflexivity|]).
  eexists. split; [lazy; reflexivity|].
  repeat split; reflexivity.
Qed.

(** C6. Whenever [compute_income] returns, [xp_cash_denom] is nonzero and
    [yen_from_fishing] is [catches_per_hour * avg_xp_per_catch *
    (xp_cash_numer / xp_cash_denom)], whatever the other parameters
    are. *)
Theorem yen_from_fishing_identity (cfg : Config float) (r : Result float) :
  returned cfg = Ok r ->
  b64_zero (xp_cash_denom cfg) = false /\
  yen_from_fishing r
  = catches_per_hour cfg * avg_xp_per_catch cfg
    * (xp_cash_numer cfg / xp_cash_denom cfg).
Proof.
  intros R. unpack_derivation R. b64_ops.
  apply b64_truediv_Ok in Eyen. destruct Eyen as [D Eyen].
  split; [exact D|]. rewrite Eyen_fishing, Exp_fishing, Eyen. reflexivity.
Qed.

Lemma yen_from_fishing_identity_witness :
  exists r,
    returned default_config = Ok r /\
    b64_zero (xp_cash_denom default_config) = false /\
    yen_from_fishing r = 500 * 3.5 * (40 / 12).
Proof.
  eexists. split; [lazy; reflexivity|].
  apply (yen_from_fishing_identity default_config). lazy. reflexivity.
Defined.

(** [yen_from_fishing] depends on the four parameters of the identity
    only. *)
Corollary yen_from_fishing_independent (cfg cfg' : Config float) (r r' : Result float) :
  returned cfg = Ok r -> returned cfg' = Ok r' ->
  catches_per_hour cfg = catches_per_hour cfg' ->
  avg_xp_per_catch cfg = avg_xp_per_catch cfg' ->
  xp_cash_numer cfg = xp_cash_numer cfg' ->
  xp_cash_denom cfg = xp_cash_denom cfg' ->
  yen_from_fishing r = yen_from_fishing r'.
Proof.
  intros R R' Ec Ea En Ed.
  unpack_derivation R. b64_ops.
  apply b64_truediv_Ok in Eyen. destruct Eyen as [_ Eyen].
  rewrite Eyen_fishing, Exp_fishing, Eyen. clear - R' Ec Ea En Ed.
  unpack_derivation R'. b64_ops.
  apply b64_truediv_Ok in Eyen. destruct Eyen as [_ Eyen].
  rewrite Eyen_fishing, Exp_fishing, Eyen. congruence.
Qed.

(** C7, as stated, fails.  With [treasure_rate = 0] and
    [catches_per_hour = inf] (the command line accepts
    [--catches-per-hour inf]) the treasure, book and tool counts are
    NaN, not zero; with finite inputs whose quotient
    [xp_cash_numer / xp_cash_denom] overflows, [yen_from_books] and
    [yen_from_tools] are NaN. *)
Lemma zero_treasure_not_zero :
  (exists r,
     returned (with_treasure_rate 0 (with_catches_per_hour infinity default_config))
     = Ok r /\
     b64_zero (treasures_per_hour r) = false /\
     b64_zero (books_per_hour r) = false /\
     b64_zero (tools_per_hour r) = false /\
     b64_zero (revenue_mending r) = false) /\
  (exists r,
     returned (with_treasure_rate 0 (with_xp_cash 1e308 1e-308 default_config))
     = Ok r /\
     b64_zero (yen_from_books r) = false /\
     b64_zero (yen_from_tools r) = false).
Proof.
  split; eexists; (split; [lazy; reflexivity|]); repeat split; reflexivity.
Qed.

(** C7 (amended). For every configuration with [treasure_rate = 0]
    whose float fields are all finite and whose sum of the three
    sellable rates is finite, if [compute_income] returns a result whose
    [yen_per_xp] is finite, then [treasures_per_hour], [books_per_hour],
    [tools_per_hour], [revenue_mending], [revenue_non_mending],
    [yen_from_books] and [yen_from_tools] are zero and [fish_per_hour]
    is [catches_per_hour]. *)
Theorem zero_treasure_boundary (cfg : Config float) (r : Result float) :
  returned cfg = Ok r ->
  b64_zero (treasure_rate cfg) = true ->
  all_finite cfg = true ->
  b64_finite
    (book_smite_only_rate cfg + book_bane_only_rate cfg + book_unb3_only_rate cfg)
  = true ->
  b64_finite (yen_per_xp r) = true ->
  b64_zero (treasures_per_hour r) = true /\
  b64_zero (books_per_hour r) = true /\
  b64_zero (tools_per_hour r) = true /\
  b64_zero (revenue_mending r) = true /\
  b64_zero (revenue_non_mending r) = true /\
  b64_zero (yen_from_books r) = true /\
  b64_zero (yen_from_tools r) = true /\
  fish_per_hour r = catches_per_hour cfg.
Proof.
  intros R Z Fin Fsum Fyen. unpack_derivation R. b64_ops. finite_fields Fin.
  apply b64_truediv_Ok in Ebooks. destruct Ebooks as [Dtypes Ebooks].
  assert (Zt : b64_zero (treasures_per_hour r) = true)
    by (rewrite Etreasures; apply b64_mul_zero_r; assumption).
  assert (Zb : b64_zero (books_per_hour r) = true)
    by (rewrite Ebooks; apply b64_div_zero_l; zero_left).
  assert (Zm : b64_zero (mending_books_per_hour r) = true)
    by (rewrite Emending; zero_left).
  assert (Zs : b64_zero (sellable_non_mending_books r) = true)
    by (rewrite Esellable; zero_left).
  assert (Zg : b64_zero (grind_books r) = true)
    by (rewrite Egrind; zero_left).
  assert (Ztools : b64_zero (tools_per_hour r) = true)
    by (rewrite Etools; zero_left).
  split; [exact Zt|]. split; [exact Zb|]. split; [exact Ztools|].
  split; [rewrite Erev_mending, Esingle, Emulti; zero_left|].
  split; [rewrite Erev_non_mending; zero_left|].
  split; [rewrite Eyen_books, Exp_books; zero_left|].
  split; [rewrite Eyen_tools, Exp_tools; zero_left|].
  rewrite Efish, (b64_one_sub_zero _ Z). apply b64_mul_one_r.
Qed.

Lemma zero_treasure_boundary_witness :
  exists r,
    returned (with_treasure_rate 0 default_config) = Ok r /\
    b64_zero (treasures_per_hour r) = true /\
    b64_zero (books_per_hour r) = true /\
    b64_zero (tools_per_hour r) = true /\
    b64_zero (revenue_mending r) = true /\
    b64_zero (revenue_non_mending r) = true /\
    b64_zero (yen_from_books r) = true /\
    b64_zero (yen_from_tools r) = true /\
    fish_per_hour r = 500.
Proof.
  eexists. split; [lazy; reflexivity|].
  apply (zero_treasure_boundary (with_treasure_rate 0 default_config));
    vm_compute; reflexivity.
Defined.

(** C8, as stated, fails: with [treasure_rate = 1] and
    [catches_per_hour = inf], [fish_per_hour], the four counts and
    [revenue_fish] are NaN. *)
Lemma full_treasure_not_zero :
  exists r,
    returned (with_treasure_rate 1 (with_catches_per_hour infinity default_config))
    = Ok r /\
    b64_zero (fish_per_hour r) = false /\
    b64_zero (cod r) = false /\
    b64_zero (salmon r) = false /\
    b64_zero (puffer r) = false /\
    b64_zero (tropical r) = false /\
    b64_zero (revenue_fish r) = false.
Proof.
  eexists. split; [lazy; reflexivity|]. repeat split; reflexivity.
Qed.

(** C8 (amended). For every configuration with [treasure_rate = 1]
    whose float fields are all finite, if [compute_income] returns a
    result then [fish_per_hour], the count of each fish type and
    [revenue_fish] are zero. *)
Theorem full_treasure_boundary (cfg : Config float) (r : Result float) :
  returned cfg = Ok r ->
  treasure_rate cfg = 1 ->
  all_finite cfg = true ->
  b64_zero (fish_per_hour r) = true /\
  b64_zero (cod r) = true /\
  b64_zero (salmon r) = true /\
  b64_zero (puffer r) = true /\
  b64_zero (tropical r) = true /\
  b64_zero (revenue_fish r) = true.
Proof.
  intros R T Fin. unpack_derivation R. b64_ops. finite_fields Fin.
  assert (Zf : b64_zero (fish_per_hour r) = true).
  { rewrite Efish, T. change (1 - 1) with 0.
    apply b64_mul_zero_r; [assumption|reflexivity]. }
  assert (Zc : b64_zero (cod r) = true) by (rewrite Ecod; zero_left).
  assert (Zs : b64_zero (salmon r) = true) by (rewrite Esalmon; zero_left).
  assert (Zp : b64_zero (puffer r) = true) by (rewrite Epuffer; zero_left).
  assert (Zt : b64_zero (tropical r) = true) by (rewrite Etropical; zero_left).
  repeat (split; [assumption|]).
  rewrite Erev_fish. zero_left.
Qed.

Lemma full_treasure_boundary_witness :
  exists r,
    returned (with_treasure_rate 1 default_config) = Ok r /\
    b64_zero (fish_per_hour r) = true /\
    b64_zero (cod r) = true /\
    b64_zero (salmon r) = true /\
    b64_zero (puffer r) = true /\
    b64_zero (tropical r) = true /\
    b64_zero (revenue_fish r) = true.
Proof.
  eexists. split; [lazy; reflexivity|].
  apply (full_treasure_boundary (with_treasure_rate 1 default_config));
    vm_compute; reflexivity.
Defined.

(** C3, as stated, fails: at the default configuration the three book
    counts add up to [9.4166666666666643] while [books_per_hour] is
    [9.4166666666666661]; the two differ by less than [1e-14]. *)
Lemma conservation_not_exact :
  exists r,
    returned default_config = Ok r /\
    (mending_books_per_hour r + sellable_non_mending_books r + grind_books r
     =? books_per_hour r) = false /\
    (abs (mending_books_per_hour r + sellable_non_mending_books r + grind_books r
          - books_per_hour r) <? 1e-14) = true.
Proof. eexists. split; [lazy; reflexivity|]. split; reflexivity. Qed.

(** C4, as stated, fails: at the defaults, ten times the throughput
    ([catches_per_hour = 5000]) gives a [books_per_hour] that is not ten
    times the one for [catches_per_hour = 500]. *)
Lemma linearity_not_exact :
  exists r r',
    returned default_config = Ok r /\
    returned (with_catches_per_hour (10 * 500) default_config) = Ok r' /\
    (books_per_hour r' =? 10 * books_per_hour r) = false /\
    (abs (books_per_hour r' - 10 * books_per_hour r) <? 1e-13) = true.
Proof.
  do 2 eexists. split; [lazy; reflexivity|]. split; [lazy; reflexivity|].
  split; reflexivity.
Qed.

(** C10, as stated, fails: at the defaults with [catches_per_hour = 100],
    [tools_per_hour] is [3.7666666666666666] while twice
    [books_per_hour] is [3.7666666666666671]. *)
Lemma tools_not_twice_books :
  exists r,
    returned (with_catches_per_hour 100 default_config) = Ok r /\
    treasure_types (with_catches_per_hour 100 default_config) = 6%Z /\
    (tools_per_hour r =? 2 * books_per_hour r) = false /\
    (abs (tools_per_hour r - 2 * books_per_hour r) <? 1e-14) = true.
Proof. eexists. split; [lazy; reflexivity|]. repeat split; reflexivity. Qed.

End Python.

(** ** The estimator in exact arithmetic *)

Ltac exact_ops :=
  cbn [f_truediv f_mul f_add f_sub f_of_int int_truediv f_one exact] in *.

Ltac config_fields_of_replace :=
  cbn [with_catches_per_hour
       catches_per_hour treasure_rate treasure_types fish_rate_cod
       fish_rate_salmon fish_rate_puffer fish_rate_tropical fish_price_cod
       fish_price_salmon fish_price_puffer fish_price_tropical
       book_mending_rate book_mending_single_rate book_mending_multi_rate
       book_smite_only_rate book_bane_only_rate book_unb3_only_rate
       avg_enchants_per_book avg_xp_per_enchant avg_xp_per_catch xp_cash_numer
       xp_cash_denom avg_enchants_per_tool price_mending_single
       price_mending_multi price_smite_only price_bane_only price_unb3_only]
    in *.

Section Exact.

#[local] Open Scope Q_scope.

Lemma Q_truediv_Ok x y q : Q_truediv x y = Ok q -> ~ y == 0 /\ q = x / y.
Proof.
  unfold Q_truediv. destruct (Qeq_bool y 0) eqn:E; [discriminate|].
  intros H. injection H as <-. split; [|reflexivity].
  intros Hy. apply Qeq_bool_iff in Hy. congruence.
Qed.

Lemma Q_int_truediv_Ok a b q :
  Q_int_truediv a b = Ok q -> b <> 0%Z /\ q = inject_Z a / inject_Z b.
Proof.
  unfold Q_int_truediv. destruct (Z.eqb_spec b 0); [discriminate|].
  intros H. injection H as <-. split; [assumption|reflexivity].
Qed.

Lemma Q_of_int_Ok (z : Z) (q : Q) : Ok (inject_Z z) = Ok q -> q = inject_Z z.
Proof. intros H. injection H as <-. reflexivity. Qed.

Lemma inject_Z_nonzero z : z <> 0%Z -> ~ inject_Z z == 0.
Proof. intros H E. apply H. unfold Qeq in E. simpl in E. lia. Qed.

(** In exact arithmetic the call returns as soon as both divisors are
    nonzero. *)
Lemma exact_returns (cfg : Config Q) :
  ~ xp_cash_denom cfg == 0 -> treasure_types cfg <> 0%Z ->
  exists r, returned cfg = Ok r.
Proof.
  intros D T. py_unfold. exact_ops. unfold Q_truediv, Q_int_truediv.
  destruct (Qeq_bool (xp_cash_denom cfg) 0) eqn:E1.
  { apply Qeq_bool_iff in E1. contradiction. }
  destruct (Qeq_bool (inject_Z (treasure_types cfg)) 0) eqn:E2.
  { apply Qeq_bool_iff in E2. apply inject_Z_nonzero in T. contradiction. }
  destruct (Z.eqb_spec (treasure_types cfg) 0); [contradiction|].
  eexists. reflexivity.
Qed.

(** The equations of a returned result, with the divisions and the
    conversions of integers written out. *)
Ltac exact_equations R :=
  apply returned_derivation in R; unfold derivation in R;
  repeat match goal with
         | H : exists _, _ |- _ => destruct H
         | H : _ /\ _ |- _ => destruct H
         end;
  config_fields_of_replace; exact_ops;
  repeat match goal with
         | H : Q_truediv _ _ = Ok _ |- _ =>
             apply Q_truediv_Ok in H; destruct H as [? H]
         | H : Q_int_truediv _ _ = Ok _ |- _ =>
             apply Q_int_truediv_Ok in H; destruct H as [? H]
         | H : Ok (inject_Z _) = Ok _ |- _ => apply Q_of_int_Ok in H
         end.

(** C3 (amended). When the formulas of [compute_income] are evaluated in
    exact arithmetic, [mending_books_per_hour +
    sellable_non_mending_books + grind_books = books_per_hour] for every
    configuration that yields a result, whatever the rates (also when
    [grind_books] is negative).  In binary64 the two sides agree up to
    rounding only. *)
Theorem conservation_exact (cfg : Config Q) (r : Result Q) :
  returned cfg = Ok r ->
  mending_books_per_hour r + sellable_non_mending_books r + grind_books r
  == books_per_hour r.
Proof.
  intros R. exact_equations R. destruct r. result_fields. subst. ring.
Qed.

Lemma conservation_exact_witness :
  exists r,
    returned default_config_exact = Ok r /\
    mending_books_per_hour r + sellable_non_mending_books r + grind_books r
    == books_per_hour r.
Proof.
  eexists. split; [lazy; reflexivity|].
  apply (conservation_exact default_config_exact). lazy. reflexivity.
Defined.

(** C4 (amended). When the formulas of [compute_income] are evaluated in
    exact arithmetic, replacing [catches_per_hour] by
    [k * catches_per_hour] with the other fields fixed multiplies every
    per-hour count, every experience and revenue term and
    [total_yen_per_hour] by [k], for every configuration that yields a
    result and every [k].  In binary64 the scaled values agree up to
    rounding only. *)
Theorem linearity_exact (cfg : Config Q) (k : Q) (r : Result Q) :
  returned cfg = Ok r ->
  exists r',
    returned (with_catches_per_hour (k * catches_per_hour cfg) cfg) = Ok r' /\
    scaled_by k r r'.
Proof.
  intros R.
  assert (D : exists r',
             returned (with_catches_per_hour (k * catches_per_hour cfg) cfg) = Ok r').
  { pose proof R as R0. exact_equations R0. apply exact_returns; assumption. }
  destruct D as [r' R']. exists r'. split; [exact R'|].
  exact_equations R. exact_equations R'.
  destruct r, r'. unfold scaled_by. result_fields. subst.
  repeat split; try field; auto.
Qed.

Lemma linearity_exact_witness :
  exists r,
    returned default_config_exact = Ok r /\
    exists r',
      returned (with_catches_per_hour (10 * catches_per_hour default_config_exact)
                  default_config_exact) = Ok r' /\
      scaled_by 10 r r'.
Proof.
  eexists. split; [lazy; reflexivity|].
  apply (linearity_exact default_config_exact 10). lazy. reflexivity.
Defined.

(** C10 (amended). When the formulas of [compute_income] are evaluated
    in exact arithmetic, [tools_per_hour = 2 * books_per_hour] for every
    configuration that yields a result (then [treasure_types] is
    nonzero), whatever the value of [treasure_types].  In binary64 the
    two agree up to rounding only. *)
Theorem tools_twice_books_exact (cfg : Config Q) (r : Result Q) :
  returned cfg = Ok r ->
  treasure_types cfg <> 0%Z /\
  tools_per_hour r == 2 * books_per_hour r.
Proof.
  intros R. exact_equations R. split; [assumption|].
  destruct r. result_fields. subst. field. assumption.
Qed.

Lemma tools_twice_books_exact_witness :
  exists r,
    returned default_config_exact = Ok r /\
    treasure_types default_config_exact <> 0%Z /\
    tools_per_hour r == 2 * books_per_hour r.
Proof.
  eexists. split; [lazy; reflexivity|].
  apply (tools_twice_books_exact default_config_exact). lazy. reflexivity.
Defined.

(** The two boundaries in exact arithmetic, where no value is infinite
    or undefined: without treasure there are no books and no tools and
    every catch is a fish; with treasure only there are no fish. *)
Lemma zero_treasure_boundary_exact (cfg : Config Q) (r : Result Q) :
  returned cfg = Ok r ->
  treasure_rate cfg == 0 ->
  treasures_per_hour r == 0 /\
  books_per_hour r == 0 /\
  tools_per_hour r == 0 /\
  revenue_mending r == 0 /\
  revenue_non_mending r == 0 /\
  yen_from_books r == 0 /\
  yen_from_tools r == 0 /\
  fish_per_hour r == catches_per_hour cfg.
Proof.
  intros R T. exact_equations R. destruct r. result_fields. subst.
  repeat split; rewrite T; field; auto.
Qed.

Lemma full_treasure_boundary_exact (cfg : Config Q) (r : Result Q) :
  returned cfg = Ok r ->
  treasure_rate cfg == 1 ->
  fish_per_hour r == 0 /\
  cod r == 0 /\
  salmon r == 0 /\
  puffer r == 0 /\
  tropical r == 0 /\
  revenue_fish r == 0.
Proof.
  intros R T. exact_equations R. destruct r. result_fields. subst.
  repeat split; rewrite T; ring.
Qed.

(** At the defaults the result computed in binary64 is the exact one up
    to a relative error of [1e-12] in every field. *)
Lemma default_run_close_to_exact :
  exists r q,
    returned default_config = Ok r /\
    returned default_config_exact = Ok q /\
    result_close_to (1 # 1000000000000) r q = true.
Proof.
  do 2 eexists. split; [lazy; reflexivity|]. split; [lazy; reflexivity|].
  vm_compute. reflexivity.
Qed.

End Exact.

(** ** The command line *)

Section CommandLine.

#[local] Open Scope string_scope.

(** The two tables of defaults are one: [asdict] of the default
    configuration lists the defaults of the dataclass fields. *)
Lemma asdict_default_config :
  asdict default_config
  = map (fun f => (field_name f, field_default f)) config_fields.
Proof. reflexivity. Qed.

(** C5, as stated, fails: [treasure_types] is a field of the
    configuration and no flag of [main] sets it. *)
Lemma treasure_types_has_no_flag :
  In (mkField "treasure_types" TInt (VInt 6)) config_fields /\
  flag_of_field (mkField "treasure_types" TInt (VInt 6)) = None /\
  ~ (forall f, In f config_fields ->
       exists a, In a parser_arguments /\ dest a = field_name f).
Proof.
  split; [cbn; tauto|]. split; [reflexivity|].
  intros H. destruct (H (mkField "treasure_types" TInt (VInt 6))) as [a [Ha Hd]].
  { cbn; tauto. }
  cbn in Ha.
  repeat (destruct Ha as [<-|Ha]; [vm_compute in Hd; discriminate|]).
  exact Ha.
Qed.

(** The field a flag sets is found by its name. *)
Ltac field_of_flag :=
  match goal with
  | |- exists f, In f config_fields /\ field_name f = dest ?a /\ _ =>
      let found :=
        eval vm_compute in
          (find (fun f => String.eqb (field_name f) (dest a)) config_fields) in
      match found with
      | Some ?f =>
          exists f; split;
          [unfold config_fields; cbn [In]; repeat first [left; reflexivity | right]
          |repeat split; reflexivity]
      end
  end.

(** C5 (amended). The command line has an optional flag for 18 of the
    28 configuration fields: every flag of [main] names a field (dashes
    for underscores), is parsed with the field's type and has the
    field's default.  The other ten fields ([treasure_types], the four
    fish rates and the five book prices) have no flag: the
    configuration [main] builds takes them from the dataclass
    defaults. *)
Theorem cli_flags :
  Forall
    (fun a =>
       exists f,
         In f config_fields /\
         field_name f = dest a /\
         field_type f = arg_type a /\
         field_default f = arg_default a)
    parser_arguments /\
  map field_name
    (filter (fun f => match flag_of_field f with None => true | Some _ => false end)
       config_fields)
  = ["treasure_types"; "fish_rate_cod"; "fish_rate_salmon"; "fish_rate_puffer";
     "fish_rate_tropical"; "price_mending_single"; "price_mending_multi";
     "price_smite_only"; "price_bane_only"; "price_unb3_only"] /\
  forall args : Namespace,
    asdict (main_config args)
    = [("catches_per_hour", VFloat (args_catches_per_hour args));
       ("treasure_rate", VFloat (args_treasure_rate args));
       ("treasure_types", VInt 6);
       ("fish_rate_cod", VFloat 0.60);
       ("fish_rate_salmon", VFloat 0.25);
       ("fish_rate_puffer", VFloat 0.13);
       ("fish_rate_tropical", VFloat 0.02);
       ("fish_price_cod", VInt (args_fish_price_cod args));
       ("fish_price_salmon", VInt (args_fish_price_salmon args));
       ("fish_price_puffer", VInt (args_fish_price_puffer args));
       ("fish_price_tropical", VInt (args_fish_price_tropical args));
       ("book_mending_rate", VFloat (args_book_mending_rate args));
       ("book_mending_single_rate", VFloat (args_book_mending_single_rate args));
       ("book_mending_multi_rate", VFloat (args_book_mending_multi_rate args));
       ("book_smite_only_rate", VFloat (args_book_smite_only_rate args));
       ("book_bane_only_rate", VFloat (args_book_bane_only_rate args));
       ("book_unb3_only_rate", VFloat (args_book_unb3_only_rate args));
       ("avg_enchants_per_book", VFloat (args_avg_enchants_per_book args));
       ("avg_xp_per_enchant", VFloat (args_avg_xp_per_enchant args));
       ("avg_xp_per_catch", VFloat (args_avg_xp_per_catch args));
       ("xp_cash_numer", VFloat (args_xp_cash_numer args));
       ("xp_cash_denom", VFloat (args_xp_cash_denom args));
       ("avg_enchants_per_tool", VFloat (args_avg_enchants_per_tool args));
       ("price_mending_single", VInt 220000);
       ("price_mending_multi", VInt 120000);
       ("price_smite_only", VInt 15000);
       ("price_bane_only", VInt 15000);
       ("price_unb3_only", VInt 5000)].
Proof.
  split; [|split; [reflexivity|intros args; reflexivity]].
  unfold parser_arguments.
  repeat (apply Forall_cons; [field_of_flag|]).
  apply Forall_nil.
Qed.

End CommandLine.

(** ** Rounding to binary64

    What [binary_round_aux], the rounding of the operations of
    [SpecFloat], returns: used for the conversion of integers and for
    the quotient [2 / treasure_types]. *)

Section Rounding.

#[local] Open Scope Z_scope.

Lemma fexp_eq x : fexp prec emax x = Z.max (x - 53) (-1074).
Proof. reflexivity. Qed.

Lemma shr_1_m r : 0 <= shr_m r -> shr_m (shr_1 r) = shr_m r / 2.
Proof.
  destruct r as [m rb sb]. cbn [shr_m]. intros H.
  destruct m as [|p|p]; [reflexivity| |lia].
  destruct p as [p|p|]; cbn [shr_1 shr_m].
  - rewrite Pos2Z.inj_xI. apply Z.div_unique with 1; lia.
  - rewrite Pos2Z.inj_xO. apply Z.div_unique with 0; lia.
  - reflexivity.
Qed.

Lemma iter_shr_1_m n : forall r,
  0 <= shr_m r -> shr_m (iter_pos shr_1 n r) = shr_m r / 2 ^ Zpos n.
Proof.
  induction n as [n IH|n IH|]; intros r H; cbn [iter_pos].
  - assert (H1 : 0 <= shr_m (shr_1 r)) by (rewrite shr_1_m by assumption; apply Z.div_pos; lia).
    assert (H2 : 0 <= shr_m (iter_pos shr_1 n (shr_1 r)))
      by (rewrite IH by assumption; apply Z.div_pos; [assumption|apply Z.pow_pos_nonneg; lia]).
    rewrite IH by assumption. rewrite IH by assumption. rewrite shr_1_m by assumption.
    rewrite !Z.div_div by (try apply Z.pow_pos_nonneg; lia).
    f_equal. replace (Zpos n~1) with (1 + Zpos n + Zpos n) by lia.
    rewrite !Z.pow_add_r by lia. change (2 ^ 1) with 2. ring.
  - assert (H2 : 0 <= shr_m (iter_pos shr_1 n r))
      by (rewrite IH by assumption; apply Z.div_pos; [assumption|apply Z.pow_pos_nonneg; lia]).
    rewrite IH by assumption. rewrite IH by assumption.
    rewrite !Z.div_div by (try apply Z.pow_pos_nonneg; lia).
    f_equal. replace (Zpos n~0) with (Zpos n + Zpos n) by lia.
    rewrite !Z.pow_add_r by lia. change (2 ^ 1) with 2. ring.
  - rewrite shr_1_m by assumption. reflexivity.
Qed.

Lemma digits2_pos_bounds p :
  2 ^ (Zpos (digits2_pos p) - 1) <= Zpos p < 2 ^ Zpos (digits2_pos p).
Proof.
  induction p as [p IH|p IH|]; cbn [digits2_pos].
  - rewrite Pos2Z.inj_succ, (Pos2Z.inj_xI p).
    replace (Z.succ (Zpos (digits2_pos p)) - 1) with (Z.succ (Zpos (digits2_pos p) - 1)) by lia.
    rewrite !Z.pow_succ_r by lia.
    generalize dependent (2 ^ (Zpos (digits2_pos p) - 1)).
    generalize dependent (2 ^ Zpos (digits2_pos p)). intros; lia.
  - rewrite Pos2Z.inj_succ, (Pos2Z.inj_xO p).
    replace (Z.succ (Zpos (digits2_pos p)) - 1) with (Z.succ (Zpos (digits2_pos p) - 1)) by lia.
    rewrite !Z.pow_succ_r by lia.
    generalize dependent (2 ^ (Zpos (digits2_pos p) - 1)).
    generalize dependent (2 ^ Zpos (digits2_pos p)). intros; lia.
  - cbn. lia.
Qed.

Lemma Zdigits2_log2 m : 0 < m -> Zdigits2 m = Z.log2 m + 1.
Proof.
  destruct m as [|p|p]; try lia. intros _. cbn [Zdigits2].
  pose proof (digits2_pos_bounds p) as B.
  assert (E : Z.log2 (Zpos p) = Zpos (digits2_pos p) - 1).
  { apply Z.log2_unique; [lia|].
    replace (Z.succ (Zpos (digits2_pos p) - 1)) with (Zpos (digits2_pos p)) by lia.
    exact B. }
  lia.
Qed.

Lemma Zdigits2_nonneg m : 0 <= m -> 0 <= Zdigits2 m.
Proof. destruct m; cbn; lia. Qed.

Lemma Zdigits2_pos m : 0 < m -> 0 < Zdigits2 m.
Proof. destruct m; cbn; lia. Qed.

(** Digits of a quotient by a power of two. *)
Lemma Zdigits2_div_pow2 m k :
  0 < m -> 0 <= k -> 0 < m / 2 ^ k -> Zdigits2 (m / 2 ^ k) = Zdigits2 m - k.
Proof.
  intros Hm Hk Hq. rewrite !Zdigits2_log2 by assumption.
  rewrite <- Z.shiftr_div_pow2 in * by assumption.
  rewrite Z.log2_shiftr by assumption.
  destruct (Z.max_spec 0 (Z.log2 m - k)) as [[A B]|[A B]]; [lia|].
  destruct (Z.eq_dec (Z.log2 m) k) as [E|E]; [lia|].
  (* log2 m < k: the quotient is zero *)
  exfalso. rewrite Z.shiftr_div_pow2 in Hq by assumption.
  assert (m < 2 ^ k).
  { apply Z.log2_lt_pow2; lia. }
  rewrite Z.div_small in Hq; lia.
Qed.

Lemma div_pow2_pos_iff m k : 0 < m -> 0 <= k -> (0 < m / 2 ^ k <-> k < Zdigits2 m).
Proof.
  intros Hm Hk. rewrite Zdigits2_log2 by assumption.
  assert (P : 0 < 2 ^ k) by (apply Z.pow_pos_nonneg; lia).
  split; intros H.
  - destruct (Z.lt_ge_cases (Z.log2 m) k) as [L|L]; [|lia].
    assert (m < 2 ^ k) by (apply Z.log2_lt_pow2; lia).
    rewrite Z.div_small in H; lia.
  - assert (2 ^ k <= m).
    { apply Z.le_trans with (2 ^ Z.log2 m); [apply Z.pow_le_mono_r; lia|].
      apply Z.log2_spec. assumption. }
    apply Z.div_str_pos. lia.
Qed.

Lemma Zdigits2_le_mono a b : 0 <= a <= b -> Zdigits2 a <= Zdigits2 b.
Proof.
  intros [Ha Hab]. destruct (Z.eq_dec a 0) as [->|Na].
  - cbn. apply Zdigits2_nonneg. lia.
  - rewrite !Zdigits2_log2 by lia. pose proof (Z.log2_le_mono a b Hab). lia.
Qed.

Lemma Zdigits2_succ_le a : 0 <= a -> Zdigits2 (a + 1) <= Zdigits2 a + 1.
Proof.
  intros Ha. destruct (Z.eq_dec a 0) as [->|Na]; [cbn; lia|].
  rewrite !Zdigits2_log2 by lia. pose proof (Z.log2_succ_le a). 
  replace (a + 1) with (Z.succ a) by lia. lia.
Qed.

Lemma shr_record_of_loc_m m l : shr_m (shr_record_of_loc m l) = m.
Proof. destruct l as [|[]]; reflexivity. Qed.

Lemma round_nearest_even_cases m l :
  round_nearest_even m l = m \/ round_nearest_even m l = m + 1.
Proof. destruct l as [|[]]; cbn; try destruct (Z.even m); auto. Qed.

Lemma shr_fexp_spec m e l :
  0 <= m -> e <= fexp prec emax (Zdigits2 m + e) ->
  exists r,
    shr_fexp prec emax m e l = (r, fexp prec emax (Zdigits2 m + e)) /\
    shr_m r = m / 2 ^ (fexp prec emax (Zdigits2 m + e) - e).
Proof.
  intros Hm He. unfold shr_fexp, shr.
  remember (fexp prec emax (Zdigits2 m + e)) as f eqn:Ef.
  destruct (f - e) as [|n|n] eqn:En; [| |lia].
  - exists (shr_record_of_loc m l). split.
    + f_equal. lia.
    + rewrite shr_record_of_loc_m. cbn. symmetry. apply Z.div_1_r.
  - exists (iter_pos shr_1 n (shr_record_of_loc m l)). split.
    + f_equal. lia.
    + rewrite iter_shr_1_m by (rewrite shr_record_of_loc_m; assumption).
      rewrite shr_record_of_loc_m. reflexivity.
Qed.

(** The outcome of rounding a nonnegative mantissa whose exponent is not
    above the canonical one. *)
Lemma binary_round_aux_spec s mx ex lx :
  0 <= mx -> ex <= fexp prec emax (Zdigits2 mx + ex) ->
  let r := binary_round_aux prec emax s mx ex lx in
  valid_binary r = true /\
  (r = S754_zero s \/ (exists m e, r = S754_finite s m e) \/ r = S754_infinity s) /\
  (0 < mx / 2 ^ (fexp prec emax (Zdigits2 mx + ex) - ex) -> r <> S754_zero s) /\
  (Zdigits2 mx + ex <= 1023 -> r <> S754_infinity s).
Proof.
  intros Hm He. unfold binary_round_aux.
  destruct (shr_fexp_spec mx ex lx Hm He) as [r1 [E1 M1]]. rewrite E1.
  remember (Zdigits2 mx + ex) as D eqn:ED.
  remember (fexp prec emax D) as e1 eqn:Ee1. rewrite fexp_eq in Ee1.
  remember (shr_m r1) as m1 eqn:Em1.
  assert (P : 0 < 2 ^ (e1 - ex)) by (apply Z.pow_pos_nonneg; lia).
  assert (Hm1 : 0 <= m1) by (rewrite M1; apply Z.div_pos; lia).
  remember (round_nearest_even m1 (loc_of_shr_record r1)) as m2 eqn:Em2.
  assert (Hm2 : m1 <= m2 <= m1 + 1)
    by (destruct (round_nearest_even_cases m1 (loc_of_shr_record r1)); lia).
  clear Em2.
  (* the first shift leaves the sum of digits and exponent unchanged *)
  assert (D1 : 0 < m1 -> Zdigits2 m1 + e1 = D /\ e1 < D).
  { intros Pos. assert (0 < mx).
    { destruct (Z.eq_dec mx 0) as [Z0|]; [|lia]. rewrite Z0 in M1. rewrite Z.div_0_l in M1; lia. }
    rewrite M1 in Pos |- *. split.
    - rewrite Zdigits2_div_pow2 by lia. lia.
    - apply div_pow2_pos_iff in Pos; [|lia|lia]. lia. }
  assert (D0 : m1 = 0 -> e1 = -1074).
  { intros Z0.
    destruct (Z.eq_dec mx 0) as [Zx|Nx].
    - rewrite Zx in ED. cbn [Zdigits2] in ED. lia.
    - assert (H : ~ 0 < mx / 2 ^ (e1 - ex)) by lia.
      rewrite div_pow2_pos_iff in H by lia. lia. }
  assert (He2 : e1 <= fexp prec emax (Zdigits2 m2 + e1)).
  { rewrite fexp_eq. destruct (Z.eq_dec m1 0) as [Z0|N0].
    - rewrite (D0 Z0). lia.
    - destruct D1 as [D1 _]; [lia|].
      pose proof (Zdigits2_le_mono m1 m2 ltac:(lia)). lia. }
  destruct (shr_fexp_spec m2 e1 loc_Exact ltac:(lia) He2) as [r2 [E2 M2]]. rewrite E2.
  remember (fexp prec emax (Zdigits2 m2 + e1)) as e2 eqn:Ee2.
  pose proof Ee2 as Ee2'. rewrite fexp_eq in Ee2'.
  remember (shr_m r2) as m3 eqn:Em3.
  assert (P2 : 0 < 2 ^ (e2 - e1)) by (apply Z.pow_pos_nonneg; lia).
  assert (Hm3 : 0 <= m3) by (rewrite M2; apply Z.div_pos; lia).
  assert (Dsucc : Zdigits2 m2 <= Zdigits2 m1 + 1).
  { pose proof (Zdigits2_le_mono m2 (m1 + 1) ltac:(lia)).
    pose proof (Zdigits2_succ_le m1 Hm1). lia. }
  assert (Bound : D <= 1023 -> e2 <= 971).
  { intros B.
    destruct (Z.eq_dec m1 0) as [Z0|N0].
    - pose proof (D0 Z0). rewrite Z0 in Dsucc. cbn [Zdigits2] in Dsucc. lia.
    - destruct D1 as [D1 _]; [lia|]. lia. }
  destruct m3 as [|p|p]; [| |lia].
  - repeat split; auto.
    + intros Pos _. rewrite <- M1 in Pos.
      destruct (D1 Pos) as [Dx Dlt].
      assert (0 < m2) by lia.
      assert (0 < m2 / 2 ^ (e2 - e1)).
      { apply div_pow2_pos_iff; [lia|lia|].
        pose proof (Zdigits2_le_mono m1 m2 ltac:(lia)). lia. }
      lia.
    + discriminate.
  - assert (C : canonical_mantissa prec emax p e2 = true).
    { unfold canonical_mantissa. apply Z.eqb_eq.
      change (Zpos (digits2_pos p)) with (Zdigits2 (Zpos p)).
      assert (0 < m2).
      { destruct (Z.eq_dec m2 0) as [Z0|]; [|lia]. rewrite Z0, Z.div_0_l in M2; lia. }
      rewrite M2. rewrite Zdigits2_div_pow2 by lia.
      replace (Zdigits2 m2 - (e2 - e1) + e2) with (Zdigits2 m2 + e1) by lia.
      symmetry. exact Ee2. }
    destruct (e2 <=? emax - prec) eqn:L.
    + repeat split; eauto; try discriminate.
      cbn [valid_binary]. unfold SpecFloat.valid_binary, bounded. rewrite C, L. reflexivity.
    + repeat split; auto; try discriminate.
      intros B. apply Bound in B. apply Z.leb_gt in L. change (emax - prec) with 971 in L. lia.
Qed.

Lemma Zdigits2_mul_pow2 m k : 0 < m -> 0 <= k -> Zdigits2 (m * 2 ^ k) = Zdigits2 m + k.
Proof.
  intros Hm Hk. assert (0 < 2 ^ k) by (apply Z.pow_pos_nonneg; lia).
  rewrite !Zdigits2_log2 by nia. rewrite Z.log2_mul_pow2 by lia. lia.
Qed.

Lemma shl_align_spec mx ex ex' :
  exists mz ez,
    shl_align mx ex ex' = (mz, ez) /\
    ez = Z.min ex ex' /\
    Zpos mz = Zpos mx * 2 ^ (ex - ez).
Proof.
  unfold shl_align. destruct (ex' - ex) as [|d|d] eqn:E.
  - exists mx, ex. repeat split; [lia|]. rewrite Z.sub_diag. cbn. lia.
  - exists mx, ex. repeat split; [lia|]. rewrite Z.sub_diag. cbn. lia.
  - exists (Pos.iter xO mx d), ex'. repeat split; [lia|].
    change (Pos.iter xO mx d) with (shift_pos d mx).
    rewrite shift_pos_correct. replace (ex - ex') with (Zpos d) by lia.
    rewrite Zpower_pos_nat, Zpower_nat_Z, positive_nat_Z. ring.
Qed.

(** Rounding a nonzero integer: a valid finite float that is not zero,
    or an infinity; finite when the integer is below [2^1023]. *)
Lemma binary_normalize_int z :
  z <> 0 ->
  let r := binary_normalize prec emax z 0 false in
  valid_binary r = true /\
  ((exists s m e, r = S754_finite s m e) \/ (exists s, r = S754_infinity s)) /\
  (Z.abs z < 2 ^ 1023 -> exists s m e, r = S754_finite s m e).
Proof.
  intros Hz.
  assert (G : forall s p, Z.abs z = Zpos p ->
    let r := binary_round prec emax s p 0 in
    valid_binary r = true /\
    ((exists s m e, r = S754_finite s m e) \/ (exists s, r = S754_infinity s)) /\
    (Z.abs z < 2 ^ 1023 -> exists s m e, r = S754_finite s m e)).
  { intros s p Hp. unfold binary_round.
    destruct (shl_align_spec p 0 (fexp prec emax (Zpos (digits2_pos p) + 0)))
      as (mz & ez & E & Eez & Emz).
    rewrite E. change (Zpos (digits2_pos p)) with (Zdigits2 (Zpos p)) in *.
    rewrite fexp_eq in Eez.
    assert (Dp : 0 < Zdigits2 (Zpos p)) by (apply Zdigits2_pos; lia).
    assert (Dz : Zdigits2 (Zpos mz) + ez = Zdigits2 (Zpos p)).
    { rewrite Emz. rewrite Zdigits2_mul_pow2 by lia. lia. }
    assert (Pre : ez <= fexp prec emax (Zdigits2 (Zpos mz) + ez)).
    { rewrite Dz, fexp_eq. lia. }
    destruct (binary_round_aux_spec s (Zpos mz) ez loc_Exact ltac:(lia) Pre)
      as (V & Shape & NZ & NI).
    rewrite Dz in NZ, NI.
    assert (NZ' : binary_round_aux prec emax s (Zpos mz) ez loc_Exact <> S754_zero s).
    { apply NZ. apply div_pow2_pos_iff; rewrite ?fexp_eq; lia. }
    split; [exact V|]. split.
    - destruct Shape as [Z|[(m & e & F)|I]]; [contradiction|left; eauto|right; eauto].
    - intros B.
      assert (Zdigits2 (Zpos p) <= 1023).
      { rewrite Zdigits2_log2 by lia.
        assert (Z.log2 (Zpos p) < 1023) by (apply Z.log2_lt_pow2; lia). lia. }
      destruct Shape as [Z|[(m & e & F)|I]]; [contradiction|eauto|].
      exfalso. apply NI; assumption. }
  destruct z as [|p|p]; [contradiction| |]; cbn [binary_normalize]; apply G; reflexivity.
Qed.

Lemma SFdiv_two p s :
  let r := SFdiv prec emax (S754_finite false 2 0) (S754_finite s p 0) in
  valid_binary r = true /\
  (exists s', r = S754_zero s' \/ exists m e, r = S754_finite s' m e).
Proof.
  cbn [SFdiv]. unfold SFdiv_core_binary.
  change (Zdigits2 2) with 2.
  change (Zdigits2 (Zpos p)) with (Zpos (digits2_pos p)).
  remember (Zpos (digits2_pos p)) as d2 eqn:Ed2.
  assert (Hd2 : 0 < d2) by lia.
  pose proof (digits2_pos_bounds p) as Bp. rewrite <- Ed2 in Bp.
  rewrite !Z.add_0_r, !Z.sub_0_r, fexp_eq.
  remember (Z.min (Z.max (2 - d2 - 53) (-1074)) 0) as e' eqn:Ee'.
  assert (He' : e' = Z.max (2 - d2 - 53) (-1074)) by lia.
  replace (0 - e') with (- e') by lia.
  destruct (- e') as [|sp|sp] eqn:Es; [lia| |lia].
  rewrite Z.shiftl_mul_pow2 by lia.
  destruct (Z.div_eucl (2 * 2 ^ Zpos sp) (Zpos p)) as [q rr] eqn:Eq.
  assert (Hq : q = 2 * 2 ^ Zpos sp / Zpos p) by (unfold Z.div; rewrite Eq; reflexivity).
  assert (P : 0 < 2 ^ Zpos sp) by (apply Z.pow_pos_nonneg; lia).
  assert (Q0 : 0 <= q) by (rewrite Hq; apply Z.div_pos; lia).
  assert (Qle : q <= 2 * 2 ^ Zpos sp).
  { rewrite Hq. apply Z.div_le_upper_bound; [lia|]. nia. }
  assert (Dq : Zdigits2 q <= Zpos sp + 2).
  { pose proof (Zdigits2_le_mono q (2 * 2 ^ Zpos sp) ltac:(lia)) as M.
    replace (2 * 2 ^ Zpos sp) with (1 * 2 ^ (Zpos sp + 1)) in M
      by (rewrite Z.pow_add_r by lia; change (2 ^ 1) with 2; ring).
    rewrite Zdigits2_mul_pow2 in M by lia. cbn [Zdigits2 digits2_pos] in M. lia. }
  assert (Pre : e' <= fexp prec emax (Zdigits2 q + e')).
  { rewrite fexp_eq.
    destruct (Z.eq_dec e' (-1074)) as [->|Ne]; [lia|].
    assert (Esp : Zpos sp = d2 + 51) by lia.
    assert (2 ^ 52 <= q).
    { rewrite Hq. apply Z.div_le_lower_bound; [lia|].
      rewrite Esp. replace (d2 + 51) with (51 + d2) by lia.
      rewrite (Z.pow_add_r 2 51 d2) by lia.
      assert (0 < 2 ^ d2) by (apply Z.pow_pos_nonneg; lia).
      change (2 ^ 52) with (2 * 2 ^ 51). nia. }
    assert (53 <= Zdigits2 q).
    { rewrite Zdigits2_log2 by lia.
      assert (52 <= Z.log2 q) by (apply Z.log2_le_pow2; lia). lia. }
    lia. }
  destruct (binary_round_aux_spec (xorb false s) q e' (new_location (Zpos p) rr) Q0 Pre)
    as (V & Shape & _ & NI).
  split; [exact V|]. exists (xorb false s).
  destruct Shape as [Z|[F|I]]; [left; exact Z|right; exact F|].
  exfalso. apply NI; [lia|exact I].
Qed.

End Rounding.

(** ** When [compute_income] returns and what it raises *)

Section Outcome.

#[local] Open Scope float_scope.

Lemma b64_finite_SF2Prim r :
  valid_binary r = true ->
  b64_finite (SF2Prim r)
  = match r with S754_zero _ | S754_finite _ _ _ => true | _ => false end.
Proof. intros V. unfold b64_finite. rewrite Prim2SF_SF2Prim by exact V. reflexivity. Qed.

Lemma b64_zero_SF2Prim r :
  valid_binary r = true ->
  b64_zero (SF2Prim r) = match r with S754_zero _ => true | _ => false end.
Proof. intros V. rewrite b64_zero_SF, Prim2SF_SF2Prim by exact V. reflexivity. Qed.

(** Converting an integer only ever raises [OverflowError]. *)
Lemma b64_of_int_Raise z e : b64_of_int z = Raise e -> e = OverflowError.
Proof.
  unfold b64_of_int.
  destruct (b64_finite (SF2Prim (binary_normalize prec emax z 0 false)));
    intros H; [discriminate|]. injection H as <-. reflexivity.
Qed.

(** The float of an integer is zero only for the integer [0]. *)
Lemma b64_of_int_zero_iff z t :
  b64_of_int z = Ok t -> (b64_zero t = true <-> z = 0%Z).
Proof.
  intros H. split.
  - intros Zt. destruct (Z.eq_dec z 0) as [|Nz]; [assumption|exfalso].
    destruct (binary_normalize_int z Nz) as (V & Shape & _).
    unfold b64_of_int in H.
    destruct (b64_finite (SF2Prim (binary_normalize prec emax z 0 false)));
      [|discriminate].
    injection H as <-. rewrite b64_zero_SF2Prim in Zt by exact V.
    destruct Shape as [(s & m & e & E)|(s & E)]; rewrite E in Zt; discriminate.
  - intros ->. injection H as <-. reflexivity.
Qed.

(** Every integer below [2^1023] in magnitude fits a float. *)
Lemma fits_below_2_1023 z : (Z.abs z < 2 ^ 1023)%Z -> fits z = true.
Proof.
  intros B. unfold fits, b64_of_int.
  destruct (Z.eq_dec z 0) as [->|Nz]; [reflexivity|].
  destruct (binary_normalize_int z Nz) as (V & _ & F).
  destruct (F B) as (s & m & e & E).
  rewrite b64_finite_SF2Prim by exact V. rewrite E. reflexivity.
Qed.

(** [2 / n] never raises for a nonzero [n]: the quotient is at most 2 in
    magnitude and a tiny one rounds to zero. *)
Lemma b64_int_truediv_two n : n <> 0%Z -> ok (b64_int_truediv 2 n) = true.
Proof.
  intros Nn. unfold b64_int_truediv.
  destruct (Z.eqb_spec n 0) as [|_]; [contradiction|].
  assert (G : forall s p,
    b64_finite (SF2Prim (SFdiv prec emax (S754_finite false 2 0) (S754_finite s p 0)))
    = true).
  { intros s p. destruct (SFdiv_two p s) as (V & s' & Shape).
    rewrite b64_finite_SF2Prim by exact V.
    destruct Shape as [E|(m & e & E)]; rewrite E; reflexivity. }
  destruct n as [|p|p]; [contradiction| |]; cbn [Z2SF]; rewrite G; reflexivity.
Qed.

Lemma b64_int_truediv_zero a : b64_int_truediv a 0 = Raise ZeroDivisionError.
Proof. reflexivity. Qed.

Lemma fits_Ok z : fits z = true -> exists t, b64_of_int z = Ok t.
Proof. unfold fits. apply ok_Ok. Qed.

(** A returned result tells that the divisors are nonzero and that every
    integer fits. *)
Lemma returned_fits (cfg : Config float) (r : Result float) :
  returned cfg = Ok r ->
  b64_zero (xp_cash_denom cfg) = false /\
  treasure_types cfg <> 0%Z /\
  forallb fits (int_fields cfg) = true.
Proof.
  intros R. assert (Ex : exists r, returned cfg = Ok r) by eauto.
  apply b64_returns_spec in Ex. revert Ex.
  unfold b64_returns, int_fields, fits.
  cbn [forallb]. rewrite !andb_true_iff, negb_true_iff.
  intros [[[D T] Q] (P1 & P2 & P3 & P4 & P5 & P6 & P7 & P8 & P9 & _)].
  destruct (b64_of_int (treasure_types cfg)) as [t|] eqn:Et; [|discriminate].
  apply negb_true_iff in T.
  assert (Nt : treasure_types cfg <> 0%Z).
  { intros Z0. apply (b64_of_int_zero_iff _ _ Et) in Z0. congruence. }
  repeat split; assumption.
Qed.

(** Nonzero divisors and integers that fit are all the call needs. *)
Lemma fits_returns (cfg : Config float) :
  b64_zero (xp_cash_denom cfg) = false ->
  treasure_types cfg <> 0%Z ->
  forallb fits (int_fields cfg) = true ->
  exists r, returned cfg = Ok r.
Proof.
  intros D Nt F. apply b64_returns_spec. revert F.
  unfold b64_returns, int_fields, fits.
  cbn [forallb]. rewrite !andb_true_iff, negb_true_iff.
  intros (T & P6 & P7 & P8 & P9 & P1 & P2 & P3 & P4 & P5 & _).
  destruct (b64_of_int (treasure_types cfg)) as [t|] eqn:Et; [|discriminate].
  assert (Zt : b64_zero t = false).
  { destruct (b64_zero t) eqn:Zt; [|reflexivity].
    apply (b64_of_int_zero_iff _ _ Et) in Zt. contradiction. }
  rewrite Zt, (b64_int_truediv_two _ Nt). repeat split; assumption.
Qed.

(** X1. On Python's numbers [compute_income] returns a result exactly
    when [xp_cash_denom] is not zero, [treasure_types] is not 0 and
    every integer field fits a float. *)
Theorem returns_iff (cfg : Config float) :
  (exists r, returned cfg = Ok r) <->
  b64_zero (xp_cash_denom cfg) = false /\
  treasure_types cfg <> 0%Z /\
  forallb fits (int_fields cfg) = true.
Proof.
  split.
  - intros [r R]. exact (returned_fits cfg r R).
  - intros (D & Nt & F). exact (fits_returns cfg D Nt F).
Qed.

(** A zero divisor raises (the configuration need not be a default). *)
Lemma zero_divisor_ZeroDivisionError (cfg : Config float) :
  b64_zero (xp_cash_denom cfg) = true \/ treasure_types cfg = 0%Z ->
  returned cfg = Raise ZeroDivisionError.
Proof.
  intros H. py_unfold. cbn [f_truediv f_of_int b64]. unfold b64_truediv at 1.
  destruct (b64_zero (xp_cash_denom cfg)) eqn:D; [reflexivity|].
  destruct H as [H|H]; [discriminate|].
  rewrite H. reflexivity.
Qed.

(** With nonzero divisors, an integer that does not fit raises
    [OverflowError]. *)
Lemma misfit_OverflowError (cfg : Config float) :
  b64_zero (xp_cash_denom cfg) = false ->
  treasure_types cfg <> 0%Z ->
  forallb fits (int_fields cfg) = false ->
  returned cfg = Raise OverflowError.
Proof.
  intros D Nt Mis.
  destruct (returned cfg) as [r|e] eqn:R.
  - exfalso. destruct (returned_fits cfg r R) as (_ & _ & F). congruence.
  - f_equal. revert R. py_unfold. cbn [f_truediv f_of_int int_truediv b64].
    unfold b64_truediv at 1. rewrite D. cbv beta iota.
    destruct (b64_of_int (treasure_types cfg)) as [t|e0] eqn:Et; cbv beta iota;
      [|intros R; injection R as <-; exact (b64_of_int_Raise _ _ Et)].
    assert (Zt : b64_zero t = false).
    { destruct (b64_zero t) eqn:Zt; [|reflexivity].
      apply (b64_of_int_zero_iff _ _ Et) in Zt. contradiction. }
    unfold b64_truediv at 1. rewrite Zt. cbv beta iota.
    pose proof (b64_int_truediv_two _ Nt) as Q.
    destruct (b64_int_truediv 2 (treasure_types cfg)) as [q|] eqn:Eq; [|discriminate].
    repeat first
      [ rewrite Eq; cbv beta iota
      | match goal with
        | |- context [match b64_of_int ?a with _ => _ end] =>
            let E := fresh "E" in
            destruct (b64_of_int a) eqn:E; cbv beta iota;
            [|intros R; injection R as <-; exact (b64_of_int_Raise _ _ E)]
        end ].
    discriminate.
Qed.

(** The outcome is decided by the divisors and the integers. *)
Lemma returned_cases (cfg : Config float) :
  returned cfg
  = (if b64_zero (xp_cash_denom cfg) || (treasure_types cfg =? 0)%Z
     then Raise ZeroDivisionError
     else if forallb fits (int_fields cfg) then returned cfg
     else Raise OverflowError).
Proof.
  destruct (b64_zero (xp_cash_denom cfg)) eqn:D; cbn [orb].
  { apply zero_divisor_ZeroDivisionError. left. exact D. }
  destruct (Z.eqb_spec (treasure_types cfg) 0) as [Zt|Nt].
  { apply zero_divisor_ZeroDivisionError. right. exact Zt. }
  destruct (forallb fits (int_fields cfg)) eqn:F; [reflexivity|].
  apply misfit_OverflowError; assumption.
Qed.

(** X2. [compute_income] raises [ZeroDivisionError] exactly when
    [xp_cash_denom] is zero or [treasure_types] is 0: a zero divisor is
    met before any integer that does not fit. *)
Theorem ZeroDivisionError_iff (cfg : Config float) :
  returned cfg = Raise ZeroDivisionError <->
  b64_zero (xp_cash_denom cfg) = true \/ treasure_types cfg = 0%Z.
Proof.
  split; [|apply zero_divisor_ZeroDivisionError].
  rewrite returned_cases.
  destruct (b64_zero (xp_cash_denom cfg)) eqn:D; [left; reflexivity|].
  destruct (Z.eqb_spec (treasure_types cfg) 0) as [Zt|Nt]; [right; assumption|].
  cbn [orb]. destruct (forallb fits (int_fields cfg)) eqn:F; [|discriminate].
  intros R. destruct (fits_returns cfg D Nt F) as [r Ex]. congruence.
Qed.

(** X3. [compute_income] raises [OverflowError] exactly when both
    divisors are nonzero and some integer field (treasure_types or a
    price) does not fit a float. *)
Theorem OverflowError_iff (cfg : Config float) :
  returned cfg = Raise OverflowError <->
  b64_zero (xp_cash_denom cfg) = false /\
  treasure_types cfg <> 0%Z /\
  forallb fits (int_fields cfg) = false.
Proof.
  split; [|intros (D & Nt & F); apply misfit_OverflowError; assumption].
  rewrite returned_cases.
  destruct (b64_zero (xp_cash_denom cfg)) eqn:D; [discriminate|].
  destruct (Z.eqb_spec (treasure_types cfg) 0) as [Zt|Nt]; [discriminate|].
  cbn [orb]. destruct (forallb fits (int_fields cfg)) eqn:F; [|auto].
  intros R. destruct (fits_returns cfg D Nt F) as [r Ex]. congruence.
Qed.

(** X4. When every integer field is below [2^1023] in magnitude (the
    defaults are), no [OverflowError] is possible: [compute_income]
    returns a result if [xp_cash_denom] is not zero and
    [treasure_types] is not 0, and raises [ZeroDivisionError]
    otherwise. *)
Theorem returns_or_ZeroDivisionError (cfg : Config float) :
  Forall (fun z => (Z.abs z < 2 ^ 1023)%Z) (int_fields cfg) ->
  if negb (b64_zero (xp_cash_denom cfg)) && negb (treasure_types cfg =? 0)%Z
  then exists r, returned cfg = Ok r
  else returned cfg = Raise ZeroDivisionError.
Proof.
  intros B.
  assert (F : forallb fits (int_fields cfg) = true).
  { apply forallb_forall. intros z Hz. apply fits_below_2_1023.
    rewrite Forall_forall in B. apply B. exact Hz. }
  destruct (b64_zero (xp_cash_denom cfg)) eqn:D; cbn [negb andb].
  { apply zero_divisor_ZeroDivisionError. left. exact D. }
  destruct (Z.eqb_spec (treasure_types cfg) 0) as [Zt|Nt]; cbn [negb].
  { apply zero_divisor_ZeroDivisionError. right. exact Zt. }
  apply fits_returns; assumption.
Qed.

Lemma returns_or_ZeroDivisionError_witness :
  exists r, returned default_config = Ok r.
Proof.
  apply (returns_or_ZeroDivisionError default_config).
  unfold int_fields. repeat constructor; vm_compute; reflexivity.
Defined.

End Outcome.

(** ** The script *)

Section Script.

#[local] Open Scope float_scope.

(** What [main] passes to the estimator: the integers that no flag sets
    are the defaults, which fit a float. *)
Lemma main_config_fits (args : Namespace) :
  forallb fits (int_fields (main_config args))
  = forallb fits
      [args_fish_price_cod args; args_fish_price_salmon args;
       args_fish_price_puffer args; args_fish_price_tropical args].
Proof.
  unfold int_fields, main_config. cbn [treasure_types fish_price_cod fish_price_salmon
    fish_price_puffer fish_price_tropical price_mending_single price_mending_multi
    price_smite_only price_bane_only price_unb3_only default_config forallb].
  change (fits 6) with true. change (fits 220000) with true.
  change (fits 120000) with true. change (fits 15000) with true.
  change (fits 5000) with true.
  rewrite !andb_true_r. reflexivity.
Qed.

Lemma main_returned (args : Namespace) :
  fst (main args)
  = match returned (main_config args) with
    | Ok _ => Ok tt
    | Raise e => Raise e
    end.
Proof.
  unfold main, returned.
  destruct (compute_income (main_config args)) as [[r|e] c]; reflexivity.
Qed.

(** The outcome of the script is decided by [--xp-cash-denom] and the
    four fish prices. *)
Lemma main_cases (args : Namespace) :
  fst (main args)
  = (if b64_zero (args_xp_cash_denom args) then Raise ZeroDivisionError
     else if forallb fits
               [args_fish_price_cod args; args_fish_price_salmon args;
                args_fish_price_puffer args; args_fish_price_tropical args]
          then Ok tt
          else Raise OverflowError).
Proof.
  rewrite main_returned, <- main_config_fits.
  destruct (b64_zero (args_xp_cash_denom args)) eqn:D.
  { rewrite zero_divisor_ZeroDivisionError by (left; exact D). reflexivity. }
  destruct (forallb fits (int_fields (main_config args))) eqn:F.
  - destruct (fits_returns (main_config args) D ltac:(discriminate) F) as [r R].
    rewrite R. reflexivity.
  - rewrite (misfit_OverflowError (main_config args) D ltac:(discriminate) F).
    reflexivity.
Qed.

(** X5. The script fails with [ZeroDivisionError] exactly when the value
    of [--xp-cash-denom] is zero: [treasure_types] has no flag and is
    6. *)
Theorem main_ZeroDivisionError_iff (args : Namespace) :
  fst (main args) = Raise ZeroDivisionError <->
  b64_zero (args_xp_cash_denom args) = true.
Proof.
  rewrite main_cases.
  destruct (b64_zero (args_xp_cash_denom args)); [tauto|].
  destruct (forallb fits _); split; discriminate.
Qed.

(** X6. The script prints its report exactly when the value of
    [--xp-cash-denom] is not zero and the four fish prices fit a float;
    otherwise it stops on an exception. *)
Theorem main_prints_iff (args : Namespace) :
  fst (main args) = Ok tt <->
  b64_zero (args_xp_cash_denom args) = false /\
  forallb fits
    [args_fish_price_cod args; args_fish_price_salmon args;
     args_fish_price_puffer args; args_fish_price_tropical args] = true.
Proof.
  rewrite main_cases.
  destruct (b64_zero (args_xp_cash_denom args));
    [split; [discriminate|intros [? _]; discriminate]|].
  destruct (forallb fits _); [tauto|].
  split; [discriminate|intros [_ ?]; discriminate].
Qed.

(** X7. The script fails with [OverflowError] exactly when the value of
    [--xp-cash-denom] is not zero and one of the four fish prices does
    not fit a float. *)
Theorem main_OverflowError_iff (args : Namespace) :
  fst (main args) = Raise OverflowError <->
  b64_zero (args_xp_cash_denom args) = false /\
  forallb fits
    [args_fish_price_cod args; args_fish_price_salmon args;
     args_fish_price_puffer args; args_fish_price_tropical args] = false.
Proof.
  rewrite main_cases.
  destruct (b64_zero (args_xp_cash_denom args));
    [split; [discriminate|intros [? _]; discriminate]|].
  destruct (forallb fits _); [|tauto].
  split; [discriminate|intros [_ ?]; discriminate].
Qed.


End Script.

(** ** What the formulas conserve, in exact arithmetic *)

(** The equations of a result returned in exact arithmetic. *)
Ltac exact_steps R :=
  apply returned_derivation in R; unfold derivation in R;
  repeat match goal with
         | H : exists _, _ |- _ => destruct H
         | H : _ /\ _ |- _ => destruct H
         end;
  exact_ops;
  repeat match goal with
         | H : Q_truediv _ _ = Ok _ |- _ =>
             apply Q_truediv_Ok in H; destruct H as [? H]
         | H : Q_int_truediv _ _ = Ok _ |- _ =>
             apply Q_int_truediv_Ok in H; destruct H as [? H]
         | H : Ok (inject_Z _) = Ok _ |- _ => apply Q_of_int_Ok in H
         end.

Section Partition.

#[local] Open Scope Q_scope.

(** X9. In exact arithmetic every catch is a treasure or a fish:
    [treasures_per_hour + fish_per_hour = catches_per_hour], whatever
    the treasure rate. *)
Theorem catches_partition_exact (cfg : Config Q) (r : Result Q) :
  returned cfg = Ok r ->
  treasures_per_hour r + fish_per_hour r == catches_per_hour cfg.
Proof.
  intros R. exact_steps R. destruct r. result_fields. subst. ring.
Qed.

Lemma catches_partition_exact_witness :
  exists r,
    returned default_config_exact = Ok r /\
    treasures_per_hour r + fish_per_hour r == 500.
Proof.
  eexists. split; [lazy; reflexivity|].
  apply (catches_partition_exact default_config_exact). lazy. reflexivity.
Defined.

(** X10. In exact arithmetic, when the four fish rates add up to 1 the
    four counts add up to [fish_per_hour]. *)
Theorem fish_partition_exact (cfg : Config Q) (r : Result Q) :
  returned cfg = Ok r ->
  fish_rate_cod cfg + fish_rate_salmon cfg + fish_rate_puffer cfg
    + fish_rate_tropical cfg == 1 ->
  cod r + salmon r + puffer r + tropical r == fish_per_hour r.
Proof.
  intros R S. exact_steps R. destruct r. result_fields. subst.
  rewrite <- !Qmult_plus_distr_r, S. ring.
Qed.

Lemma fish_partition_exact_witness :
  exists r,
    returned default_config_exact = Ok r /\
    cod r + salmon r + puffer r + tropical r == fish_per_hour r.
Proof.
  eexists. split; [lazy; reflexivity|].
  apply (fish_partition_exact default_config_exact); lazy; reflexivity.
Defined.

(** X11. In exact arithmetic, when the single and multi rates of the
    mending books add up to 1 the two counts add up to
    [mending_books_per_hour]. *)
Theorem mending_partition_exact (cfg : Config Q) (r : Result Q) :
  returned cfg = Ok r ->
  book_mending_single_rate cfg + book_mending_multi_rate cfg == 1 ->
  mending_single_books r + mending_multi_books r == mending_books_per_hour r.
Proof.
  intros R S. exact_steps R. destruct r. result_fields. subst.
  rewrite <- Qmult_plus_distr_r, S. ring.
Qed.

Lemma mending_partition_exact_witness :
  exists r,
    returned default_config_exact = Ok r /\
    mending_single_books r + mending_multi_books r == mending_books_per_hour r.
Proof.
  eexists. split; [lazy; reflexivity|].
  apply (mending_partition_exact default_config_exact); lazy; reflexivity.
Defined.

(** X12. [grind_books] is not clamped at zero.  In exact arithmetic it is
    [books_per_hour] times one minus the mending rate and the three
    sellable rates, so with books at all it is negative exactly when
    these rates add up to more than 1. *)
Theorem grind_books_sign_exact (cfg : Config Q) (r : Result Q) :
  returned cfg = Ok r ->
  0 < books_per_hour r ->
  grind_books r
  == books_per_hour r
     * (1 - book_mending_rate cfg
        - (book_smite_only_rate cfg + book_bane_only_rate cfg
           + book_unb3_only_rate cfg)) /\
  (grind_books r < 0 <->
   1 < book_mending_rate cfg
       + (book_smite_only_rate cfg + book_bane_only_rate cfg
          + book_unb3_only_rate cfg)).
Proof.
  intros R B. exact_steps R. destruct r. result_fields. subst.
  match goal with |- ?g == ?b * ?f /\ _ => assert (E : g == b * f) by ring end.
  split; [exact E|]. rewrite E. split; intros H; nra.
Qed.

Lemma grind_books_sign_exact_witness :
  exists r,
    returned default_config_exact = Ok r /\
    grind_books r == books_per_hour r * (1 - (377 # 10000) - ((74 # 10000) + (49 # 10000) + (143 # 10000))) /\
    (grind_books r < 0 <-> 1 < (377 # 10000) + ((74 # 10000) + (49 # 10000) + (143 # 10000))).
Proof.
  eexists. split; [lazy; reflexivity|].
  apply (grind_books_sign_exact default_config_exact); lazy; reflexivity.
Defined.

End Partition.

(** ** No catches *)

Section NoCatches.

#[local] Open Scope float_scope.

(** X13. With [catches_per_hour = 0] and finite inputs every amount of
    the result is zero, the total included: for every configuration
    whose float fields are finite, whose sum of the three sellable
    rates and whose [1.0 - treasure_rate] are finite, if
    [compute_income] returns a result with a finite [yen_per_xp]. *)
Theorem no_catches_no_income (cfg : Config float) (r : Result float) :
  returned cfg = Ok r ->
  b64_zero (catches_per_hour cfg) = true ->
  all_finite cfg = true ->
  b64_finite
    (book_smite_only_rate cfg + book_bane_only_rate cfg + book_unb3_only_rate cfg)
  = true ->
  b64_finite (1 - treasure_rate cfg) = true ->
  b64_finite (yen_per_xp r) = true ->
  forallb b64_zero (amounts r) = true.
Proof.
  intros R Z Fin Fsum Fone Fyen. unpack_derivation R. b64_ops. finite_fields Fin.
  apply b64_truediv_Ok in Ebooks. destruct Ebooks as [Dtypes Ebooks].
  assert (Zt : b64_zero (treasures_per_hour r) = true)
    by (rewrite Etreasures; zero_left).
  assert (Zb : b64_zero (books_per_hour r) = true)
    by (rewrite Ebooks; apply b64_div_zero_l; zero_left).
  assert (Zm : b64_zero (mending_books_per_hour r) = true)
    by (rewrite Emending; zero_left).
  assert (Zms : b64_zero (mending_single_books r) = true)
    by (rewrite Esingle; zero_left).
  assert (Zmm : b64_zero (mending_multi_books r) = true)
    by (rewrite Emulti; zero_left).
  assert (Zs : b64_zero (sellable_non_mending_books r) = true)
    by (rewrite Esellable; zero_left).
  assert (Zg : b64_zero (grind_books r) = true)
    by (rewrite Egrind; zero_left).
  assert (Ztools : b64_zero (tools_per_hour r) = true)
    by (rewrite Etools; zero_left).
  assert (Zf : b64_zero (fish_per_hour r) = true)
    by (rewrite Efish; zero_left).
  assert (Zcod : b64_zero (cod r) = true) by (rewrite Ecod; zero_left).
  assert (Zsal : b64_zero (salmon r) = true) by (rewrite Esalmon; zero_left).
  assert (Zpuf : b64_zero (puffer r) = true) by (rewrite Epuffer; zero_left).
  assert (Ztro : b64_zero (tropical r) = true) by (rewrite Etropical; zero_left).
  assert (Zrf : b64_zero (revenue_fish r) = true)
    by (rewrite Erev_fish; zero_left).
  assert (Zxf : b64_zero (xp_from_fishing r) = true)
    by (rewrite Exp_fishing; zero_left).
  assert (Zyf : b64_zero (yen_from_fishing r) = true)
    by (rewrite Eyen_fishing; zero_left).
  assert (Zrm : b64_zero (revenue_mending r) = true)
    by (rewrite Erev_mending; zero_left).
  assert (Zrn : b64_zero (revenue_non_mending r) = true)
    by (rewrite Erev_non_mending; zero_left).
  assert (Zxb : b64_zero (xp_from_books r) = true)
    by (rewrite Exp_books; zero_left).
  assert (Zyb : b64_zero (yen_from_books r) = true)
    by (rewrite Eyen_books; zero_left).
  assert (Zxt : b64_zero (xp_from_tools r) = true)
    by (rewrite Exp_tools; zero_left).
  assert (Zyt : b64_zero (yen_from_tools r) = true)
    by (rewrite Eyen_tools; zero_left).
  assert (Ztot : b64_zero (total_yen_per_hour r) = true)
    by (rewrite Etotal; zero_left).
  unfold amounts, items. cbn [filter map fst snd String.eqb Ascii.eqb Bool.eqb negb forallb].
  rewrite Zt, Zb, Zm, Zms, Zmm, Zs, Zg, Ztools, Zf, Zcod, Zsal, Zpuf, Ztro, Zrf, Zyf,
    Zrm, Zrn, Zyb, Zyt, Ztot, Zxf, Zxb, Zxt. reflexivity.
Qed.

Lemma no_catches_no_income_witness :
  exists r,
    returned (with_catches_per_hour 0 default_config) = Ok r /\
    forallb b64_zero (amounts r) = true.
Proof.
  eexists. split; [lazy; reflexivity|].
  apply (no_catches_no_income (with_catches_per_hour 0 default_config));
    vm_compute; reflexivity.
Defined.

End NoCatches.
